(** * Discovery, namespacing and dispatch of MCP tools in the agentcore agents

    A shallow embedding of the tool routers found in
    [agent_with_aws_mcp.py], [agent_with_external_mcp.py],
    [agent_with_gateway_official_mcp.py], [agent_with_official_aws_mcp.py]
    and of [run_command] from [agent_with_multiple_mcp.py].

    Conventions.  A Python [str] is a [string] whose characters are the
    code points of the text (code points below 256); the emoji that open
    some printed lines stand as their UTF-8 bytes.  Effects (remote
    sessions, prints, files, subprocesses) are threaded through a small
    monad that records the events a call performs and either returns a
    value or raises a Python exception. *)

From Stdlib Require Import String Ascii List Bool Arith ZArith Lia DecimalString.
Import ListNotations.
Open Scope list_scope.
Open Scope string_scope.

(** ** Python string primitives *)

Module PyStr.

(** [s.split(sep)] for a one-character separator: every occurrence of
    [sep] ends a piece, so the result is never empty. *)
Fixpoint split (sep : ascii) (s : string) : list string :=
  match s with
  | EmptyString => [EmptyString]
  | String c s' =>
      if Ascii.eqb c sep then EmptyString :: split sep s'
      else match split sep s' with
           | p :: ps => String c p :: ps
           | [] => [String c EmptyString]
           end
  end.

(** [sep.join(parts)]. *)
Fixpoint join (sep : string) (parts : list string) : string :=
  match parts with
  | [] => EmptyString
  | [p] => p
  | p :: rest => p ++ sep ++ join sep rest
  end.

(** [sub in s]. *)
Fixpoint contains (sub s : string) : bool :=
  prefix sub s ||
  match s with
  | EmptyString => false
  | String _ s' => contains sub s'
  end.

(** [s.replace(old, new)]: occurrences of [old] are found from the left
    and do not overlap.  [skip] counts the characters of a matched
    occurrence that are still to be passed over. *)
Fixpoint replace_from (old new : string) (skip : nat) (s : string) : string :=
  match s with
  | EmptyString =>
      match old with EmptyString => new | _ => EmptyString end
  | String c s' =>
      match skip with
      | S k => replace_from old new k s'
      | O =>
          match old with
          | EmptyString => new ++ String c (replace_from old new 0 s')
          | String _ old' =>
              if prefix old s
              then new ++ replace_from old new (String.length old') s'
              else String c (replace_from old new 0 s')
          end
      end
  end.

Definition replace (old new s : string) : string := replace_from old new 0 s.

(** [str.isspace] on a single code point below 256. *)
Definition is_space (c : ascii) : bool :=
  let n := nat_of_ascii c in
  (((9 <=? n) && (n <=? 13)) || ((28 <=? n) && (n <=? 32))
   || (n =? 133) || (n =? 160))%nat.

(** [s.split()] with no argument: runs of white space separate the
    pieces, and leading and trailing white space yields no piece. *)
Fixpoint split_ws (s : string) : list string :=
  match s with
  | EmptyString => []
  | String c s' =>
      if is_space c then split_ws s'
      else match s' with
           | EmptyString => [String c EmptyString]
           | String c' _ =>
               if is_space c' then String c EmptyString :: split_ws s'
               else match split_ws s' with
                    | p :: ps => String c p :: ps
                    | [] => [String c EmptyString]
                    end
           end
  end.

(** [s[:n]]. *)
Definition slice_to (n : nat) (s : string) : string := substring 0 n s.

(** [str(n)] for a length. *)
Definition of_nat (n : nat) : string := NilEmpty.string_of_uint (Nat.to_uint n).

(** [x in l] for a list of strings. *)
Definition mem (x : string) (l : list string) : bool :=
  existsb (String.eqb x) l.

(** The first white-space-delimited token, read off the text directly:
    drop leading white space, then keep characters up to the next white
    space. *)
Fixpoint drop_space (s : string) : string :=
  match s with
  | EmptyString => EmptyString
  | String c s' => if is_space c then drop_space s' else s
  end.

Fixpoint take_word (s : string) : string :=
  match s with
  | EmptyString => EmptyString
  | String c s' => if is_space c then EmptyString else String c (take_word s')
  end.

Definition first_token (s : string) : option string :=
  match drop_space s with
  | EmptyString => None
  | w => Some (take_word w)
  end.

End PyStr.

(** ** Python values, exceptions and effects *)

Module Py.

(** A [dict] with [str] keys, in insertion order. *)
Definition dict (V : Type) : Type := list (string * V).

Fixpoint dict_get {V : Type} (d : dict V) (k : string) : option V :=
  match d with
  | [] => None
  | (k', v) :: d' => if String.eqb k k' then Some v else dict_get d' k
  end.

Definition keys {V : Type} (d : dict V) : list string := map fst d.

(** JSON-like values carried as tool arguments and schemas. *)
#[warnings="-register-all"]
Inductive pyval : Type :=
| VNone
| VBool (b : bool)
| VInt (n : Z)
| VStr (s : string)
| VList (items : list pyval)
| VDict (entries : list (string * pyval)).

(** Exceptions derived from [Exception]; [exn_str e] is [str(e)]. *)
Inductive exn_class : Type :=
| IndexError | KeyError | AttributeError | OSError | TimeoutError
| McpError | JSONDecodeError | SubprocessError.

Record exn : Type := Exn { exn_cls : exn_class; exn_str : string }.

Definition index_error : exn := Exn IndexError "list index out of range".
Definition key_error (k : string) : exn := Exn KeyError ("'" ++ k ++ "'").

(** What a tool server advertises and answers. *)
Record tool : Type := Tool
  { name : string; description : string; inputSchema : pyval }.

Definition set_name (t : tool) (n : string) : tool :=
  Tool n (description t) (inputSchema t).

Inductive content : Type :=
| TextContent (text : string)
| ImageContent (data mimeType : string)
| EmbeddedResource (uri : string).

Record call_result : Type := CallToolResult
  { result_content : list content; isError : bool }.

Record completed_process : Type := CompletedProcess
  { stdout : string; stderr : string }.

(** Where a session is opened: [streamablehttp_client(url, headers=...)]
    or [stdio_client(cmd)]. *)
Inductive endpoint : Type :=
| Http (url : string) (headers : option (dict string))
| Stdio (cmd : list string).

(** How one opened session behaves. *)
Record session : Type := Session
  { on_initialize : option exn;
    on_list_tools : exn + list tool;
    on_call_tool : string -> pyval -> exn + call_result }.

(** Everything outside the process.  The two configuration files are
    JSON objects; the entries the agents read from them are strings. *)
Record world : Type := World
  { connect : endpoint -> exn + session;
    path_exists : string -> bool;
    read_gateway_config : string -> exn + dict string;
    read_server_config : string -> exn + dict (dict string);
    getenv : string -> option string;
    repr_list : list string -> string;
    subprocess_run : string -> exn + completed_process }.

(** What a call does that can be observed from outside. *)
Inductive event : Type :=
| Print (line : string)
| Open (ep : endpoint)
| Initialize (ep : endpoint)
| ListTools (ep : endpoint)
| CallTool (ep : endpoint) (tool_name : string) (arguments : pyval)
| Close (ep : endpoint)
| RunShell (command : string).

Inductive outcome (A : Type) : Type :=
| Return (a : A)
| Raise (e : exn).
Arguments Return {A} a.
Arguments Raise {A} e.

(** A computation: the events performed, then the outcome. *)
Definition M (A : Type) : Type := (list event * outcome A)%type.

Definition ret {A : Type} (a : A) : M A := ([], Return a).
Definition raise {A : Type} (e : exn) : M A := ([], Raise e).
Definition emit (ev : event) : M unit := ([ev], Return tt).

Definition bind {A B : Type} (m : M A) (k : A -> M B) : M B :=
  match m with
  | (tr, Return a) => let (tr', o) := k a in ((tr ++ tr')%list, o)
  | (tr, Raise e) => (tr, Raise e)
  end.

(** [try: m  except Exception as e: h e]. *)
Definition try_except {A : Type} (m : M A) (h : exn -> M A) : M A :=
  match m with
  | (tr, Return a) => (tr, Return a)
  | (tr, Raise e) => let (tr', o) := h e in ((tr ++ tr')%list, o)
  end.

(** Run [cleanup] on the way out of [m], whatever its outcome. *)
Definition finally {A : Type} (m : M A) (cleanup : M unit) : M A :=
  match m with
  | (tr, o) => ((tr ++ fst cleanup)%list, o)
  end.

Definition events {A : Type} (m : M A) : list event := fst m.
Definition result {A : Type} (m : M A) : outcome A := snd m.

Definition lift {A : Type} (r : exn + A) : M A :=
  match r with
  | inl e => raise e
  | inr a => ret a
  end.

Declare Scope py_scope.
Delimit Scope py_scope with py.
Notation "x <- m ;; k" := (bind m (fun x => k))
  (at level 61, m at next level, right associativity) : py_scope.
Notation "m ;; k" := (bind m (fun _ => k))
  (at level 61, right associativity) : py_scope.
Open Scope py_scope.

Definition print (line : string) : M unit := emit (Print line).

(** [l[i]]. *)
Definition index {A : Type} (l : list A) (i : nat) : M A :=
  match nth_error l i with
  | Some a => ret a
  | None => raise index_error
  end.

(** [d[k]]. *)
Definition subscript {V : Type} (d : dict V) (k : string) : M V :=
  match dict_get d k with
  | Some v => ret v
  | None => raise (key_error k)
  end.

(** [c.text]. *)
Definition text_of (c : content) : M string :=
  match c with
  | TextContent t => ret t
  | ImageContent _ _ =>
      raise (Exn AttributeError "'ImageContent' object has no attribute 'text'")
  | EmbeddedResource _ =>
      raise (Exn AttributeError "'EmbeddedResource' object has no attribute 'text'")
  end.

Section Sessions.
Variable w : world.

(** [async with <client>(...) as ...: async with ClientSession(...)
    as session: body].  The session is closed on every way out. *)
Definition with_session {A : Type} (ep : endpoint) (body : session -> M A) : M A :=
  emit (Open ep) ;;
  match connect w ep with
  | inl e => raise e
  | inr s => finally (body s) (emit (Close ep))
  end.

Definition initialize (ep : endpoint) (s : session) : M unit :=
  emit (Initialize ep) ;;
  match on_initialize s with
  | Some e => raise e
  | None => ret tt
  end.

Definition list_tools (ep : endpoint) (s : session) : M (list tool) :=
  emit (ListTools ep) ;; lift (on_list_tools s).

Definition call_tool (ep : endpoint) (s : session)
           (tool_name : string) (arguments : pyval) : M call_result :=
  emit (CallTool ep tool_name arguments) ;; lift (on_call_tool s tool_name arguments).
End Sessions.

(** [for tool in tools: tool.name = f"{server_name}_{tool.name}";
    acc.append(tool)]. *)
Definition append_prefixed (server_name : string) (acc tools : list tool) : list tool :=
  fold_left
    (fun acc t => (acc ++ [set_name t (server_name ++ "_" ++ name t)])%list)
    tools acc.

(** Truth value of an optional [str] ([None] and [""] are false). *)
Definition truthy (s : option string) : bool :=
  match s with
  | None => false
  | Some EmptyString => false
  | Some _ => true
  end.

End Py.

Import Py.
Open Scope py_scope.
Open Scope string_scope.

(** ** agent_with_aws_mcp.py *)

Module AwsMcp.

Record server_config : Type := ServerConfig
  { url : string; description : string }.

Definition AWS_MCP_SERVERS : dict server_config :=
  [ ("aws_diagram",
     ServerConfig "http://localhost:8000/mcp" "AWS architecture diagram generation");
    ("aws_eks",
     ServerConfig "http://localhost:8001/mcp" "EKS cluster management and operations");
    ("aws_terraform",
     ServerConfig "http://localhost:8002/mcp"
                  "Terraform configuration generation and management");
    ("aws_cost",
     ServerConfig "http://localhost:8003/mcp" "AWS cost analysis and optimization");
    ("github",
     ServerConfig "http://localhost:8004/mcp"
                  "GitHub repository and operations management") ].

Section Router.
(** The outside world and the module-level server table. *)
Variable w : world.
Variable servers : dict server_config.

Definition connect_to_mcp_server (server_name : string) (config : server_config)
  : M (list tool) :=
  let ep := Http (url config) None in
  try_except
    (with_session w ep (fun session =>
       initialize ep session ;;
       tools <- list_tools ep session ;;
       let prefixed_tools := append_prefixed server_name [] tools in
       print ("✅ Connected to " ++ server_name ++ ": "
              ++ PyStr.of_nat (length prefixed_tools) ++ " tools") ;;
       ret prefixed_tools))
    (fun e =>
       print ("❌ Failed to connect to " ++ server_name ++ ": " ++ exn_str e) ;;
       ret []).

(** The loop of [get_all_aws_mcp_tools] over the remaining table entries,
    [all_tools] being what has been collected so far. *)
Fixpoint collect (entries : dict server_config) (all_tools : list tool)
  : M (list tool) :=
  match entries with
  | [] => ret all_tools
  | (server_name, config) :: rest =>
      tools <- connect_to_mcp_server server_name config ;;
      collect rest (all_tools ++ tools)
  end.

Definition get_all_aws_mcp_tools : M (list tool) := collect servers [].

(** The first lines of [execute_aws_mcp_tool]: the server name and the
    original tool name read off the prefixed name. *)
Definition parse_tool_name (tool_name : string) : M (string * string) :=
  p0 <- index (PyStr.split "_" tool_name) 0 ;;
  p1 <- index (PyStr.split "_" tool_name) 1 ;;
  let server_name := p0 ++ "_" ++ p1 in
  let original_tool_name := PyStr.join "_" (skipn 2 (PyStr.split "_" tool_name)) in
  ret (server_name, original_tool_name).

Definition execute_aws_mcp_tool (tool_name : string) (arguments : pyval) : M string :=
  parsed <- parse_tool_name tool_name ;;
  let (server_name, original_tool_name) := parsed in
  match dict_get servers server_name with
  | None => ret ("Server " ++ server_name ++ " not found")
  | Some config =>
      let ep := Http (url config) None in
      try_except
        (with_session w ep (fun session =>
           initialize ep session ;;
           result <- call_tool ep session original_tool_name arguments ;;
           match result_content result with
           | c :: _ => text_of c
           | [] => ret "No result"
           end))
        (fun e => ret ("Tool execution error: " ++ exn_str e))
  end.

End Router.
End AwsMcp.

(** ** agent_with_external_mcp.py *)

Module ExternalMcp.

Record server_config : Type := ServerConfig
  { url : option string; auth : option string }.

Definition MCP_SERVERS (w : world) : dict server_config :=
  [ ("filesystem", ServerConfig (Some "http://localhost:8001/mcp") None);
    ("database", ServerConfig (Some "http://localhost:8002/mcp") None);
    ("agentcore_gateway",
     ServerConfig (getenv w "GATEWAY_URL") (getenv w "GATEWAY_TOKEN")) ].

(** [headers = {}; if config["auth"]: headers["Authorization"] = ...]. *)
Definition headers_of (config : server_config) : dict string :=
  match auth config with
  | Some a => if truthy (Some a) then [("Authorization", "Bearer " ++ a)] else []
  | None => []
  end.

Definition url_of (config : server_config) : string :=
  match url config with
  | Some u => u
  | None => EmptyString
  end.

Section Router.
Variable w : world.
Variable servers : dict server_config.

(** The loop of [get_mcp_tools_from_servers].  Nothing raises between the
    first [append] and the end of the [try] block, so when the handler runs
    [all_tools] is still what it was when the block was entered. *)
Fixpoint collect (entries : dict server_config) (all_tools : list tool)
  : M (list tool) :=
  match entries with
  | [] => ret all_tools
  | (server_name, config) :: rest =>
      if negb (truthy (url config)) then collect rest all_tools
      else
        let ep := Http (url_of config) (Some (headers_of config)) in
        all_tools' <-
          try_except
            (with_session w ep (fun session =>
               initialize ep session ;;
               tools <- list_tools ep session ;;
               let all_tools' := append_prefixed server_name all_tools tools in
               print ("Connected to " ++ server_name ++ ": "
                      ++ PyStr.of_nat (length tools) ++ " tools") ;;
               ret all_tools'))
            (fun e =>
               print ("Failed to connect to " ++ server_name ++ ": " ++ exn_str e) ;;
               ret all_tools) ;;
        collect rest all_tools'
  end.

Definition get_mcp_tools_from_servers : M (list tool) := collect servers [].

Definition parse_tool_name (tool_name : string) : M (string * string) :=
  server_name <- index (PyStr.split "_" tool_name) 0 ;;
  let original_tool_name := PyStr.join "_" (skipn 1 (PyStr.split "_" tool_name)) in
  ret (server_name, original_tool_name).

(** [config] when [not config or not config["url"]] is false. *)
Definition available (server_name : string) : option server_config :=
  match dict_get servers server_name with
  | Some config => if truthy (url config) then Some config else None
  | None => None
  end.

Definition execute_mcp_tool (tool_name : string) (arguments : pyval) : M string :=
  parsed <- parse_tool_name tool_name ;;
  let (server_name, original_tool_name) := parsed in
  match available server_name with
  | None => ret ("Server " ++ server_name ++ " not available")
  | Some config =>
      let ep := Http (url_of config) (Some (headers_of config)) in
      try_except
        (with_session w ep (fun session =>
           initialize ep session ;;
           result <- call_tool ep session original_tool_name arguments ;;
           match result_content result with
           | c :: _ => text_of c
           | [] => ret "No result"
           end))
        (fun e => ret ("Tool execution error: " ++ exn_str e))
  end.

End Router.
End ExternalMcp.

(** ** agent_with_gateway_official_mcp.py *)

Module GatewayMcp.

Definition config_path : string := "official_mcp_gateway_config.json".

(** [if k not in d: d[k] = []] followed by [d[k].append(t)]. *)
Fixpoint group_add (d : dict (list tool)) (k : string) (t : tool) : dict (list tool) :=
  match d with
  | [] => [(k, [t])]
  | (k', ts) :: d' =>
      if String.eqb k k' then (k', (ts ++ [t])%list) :: d'
      else (k', ts) :: group_add d' k t
  end.

(** The grouping loop of [connect_to_gateway]. *)
Fixpoint group_tools (tools : list tool) (mcp_tools : dict (list tool))
  : M (dict (list tool)) :=
  match tools with
  | [] => ret mcp_tools
  | t :: rest =>
      if PyStr.contains "Official_" (name t) then
        server_name <- index (PyStr.split "_" (name t)) 1 ;;
        group_tools rest (group_add mcp_tools server_name t)
      else group_tools rest mcp_tools
  end.

Definition bearer (access_token : string) : dict string :=
  [("Authorization", "Bearer " ++ access_token)].

Section Gateway.
Variable w : world.

Definition connect_to_gateway : M (list tool) :=
  if negb (path_exists w config_path) then
    print "❌ Gateway config not found. Run setup_gateway_with_official_mcp.py first" ;;
    ret []
  else
    config <- lift (read_gateway_config w config_path) ;;
    gateway_url <- subscript config "gateway_url" ;;
    access_token <- subscript config "access_token" ;;
    print ("🔗 Connecting to Gateway: " ++ gateway_url) ;;
    let ep := Http gateway_url (Some (bearer access_token)) in
    try_except
      (with_session w ep (fun session =>
         initialize ep session ;;
         tools <- list_tools ep session ;;
         print ("🔧 Discovered " ++ PyStr.of_nat (length tools)
                ++ " tools from Gateway") ;;
         mcp_tools <- group_tools tools [] ;;
         print ("📋 Available MCP servers via Gateway: "
                ++ repr_list w (keys mcp_tools)) ;;
         ret tools))
      (fun e =>
         print ("❌ Failed to connect to Gateway: " ++ exn_str e) ;;
         ret []).

(** [GatewayToolExecutor]: the object holds the configuration read when
    it is created. *)
Record GatewayToolExecutor : Type := Executor { config : dict string }.

(** [_load_config]: any failure to open or parse the file gives [{}]. *)
Definition _load_config : dict string :=
  match read_gateway_config w config_path with
  | inr c => c
  | inl _ => []
  end.

Definition new_executor : GatewayToolExecutor := Executor _load_config.

(** The payload a proxy tool is called with. *)
Definition proxy_payload (tool_name : string) (arguments : dict pyval) : pyval :=
  let actual_tool_name :=
    match dict_get arguments "tool_name" with
    | Some v => v
    | None => VStr (PyStr.replace "_proxy" "" tool_name)
    end in
  let mcp_arguments :=
    match dict_get arguments "arguments" with
    | Some v => v
    | None => VDict arguments
    end in
  VDict [("tool_name", actual_tool_name); ("arguments", mcp_arguments)].

Definition execute_tool (self : GatewayToolExecutor)
           (tool_name : string) (arguments : dict pyval) : M string :=
  match config self with
  | [] => ret "Gateway not configured"
  | _ :: _ =>
      gateway_url <- subscript (config self) "gateway_url" ;;
      access_token <- subscript (config self) "access_token" ;;
      let ep := Http gateway_url (Some (bearer access_token)) in
      try_except
        (with_session w ep (fun session =>
           initialize ep session ;;
           print ("🔧 Executing via Gateway: " ++ tool_name) ;;
           result <-
             (if PyStr.contains "_proxy" tool_name
              then call_tool ep session tool_name (proxy_payload tool_name arguments)
              else call_tool ep session tool_name (VDict arguments)) ;;
           match result_content result with
           | c :: _ => text_of c
           | [] => ret "Tool executed successfully"
           end))
        (fun e =>
           let error_msg := "Gateway tool execution error: " ++ exn_str e in
           print ("❌ " ++ error_msg) ;;
           ret error_msg)
  end.

End Gateway.
End GatewayMcp.

(** ** agent_with_official_aws_mcp.py *)

Module OfficialMcp.

Definition config_path : string := "aws_mcp_config.json".

Section Servers.
Variable w : world.

(** The command chosen for a server directory, if any. *)
Definition server_command (server_path : string) : option (list string) :=
  if path_exists w (server_path ++ "/main.py")
  then Some ["python"; server_path ++ "/main.py"]
  else if path_exists w (server_path ++ "/index.js")
  then Some ["node"; server_path ++ "/index.js"]
  else if path_exists w (server_path ++ "/server.py")
  then Some ["python"; server_path ++ "/server.py"]
  else None.

Definition connect_to_aws_mcp_server (server_name server_path : string)
  : M (list tool) :=
  try_except
    (match server_command server_path with
     | None =>
         print ("❌ No executable found for " ++ server_name) ;;
         ret []
     | Some cmd =>
         let ep := Stdio cmd in
         with_session w ep (fun session =>
           initialize ep session ;;
           tools <- list_tools ep session ;;
           let prefixed_tools := append_prefixed server_name [] tools in
           print ("✅ Connected to " ++ server_name ++ ": "
                  ++ PyStr.of_nat (length prefixed_tools) ++ " tools") ;;
           ret prefixed_tools)
     end)
    (fun e =>
       print ("❌ Failed to connect to " ++ server_name ++ ": " ++ exn_str e) ;;
       ret []).

Fixpoint collect (entries : dict (dict string)) (all_tools : list tool)
  : M (list tool) :=
  match entries with
  | [] => ret all_tools
  | (server_name, config) :: rest =>
      server_path <- subscript config "path" ;;
      tools <- connect_to_aws_mcp_server server_name server_path ;;
      collect rest (all_tools ++ tools)
  end.

Definition get_all_aws_mcp_tools : M (list tool) :=
  if negb (path_exists w config_path) then
    print "❌ AWS MCP config not found. Run setup_aws_official_mcp.py first" ;;
    ret []
  else
    server_config <- lift (read_server_config w config_path) ;;
    collect server_config [].

End Servers.
End OfficialMcp.

(** ** agent_with_multiple_mcp.py *)

Module MultipleMcp.

Definition safe_commands : list string :=
  ["ls"; "pwd"; "date"; "whoami"; "df"; "free"].

(** [not cmd_parts or cmd_parts[0] not in safe_commands]. *)
Definition refused (cmd_parts : list string) : bool :=
  match cmd_parts with
  | [] => true
  | first :: _ => negb (PyStr.mem first safe_commands)
  end.

Section Tools.
Variable w : world.

Definition run_command (command : string) : M string :=
  let cmd_parts := PyStr.split_ws command in
  if refused cmd_parts then
    ret ("Command not allowed. Safe commands: " ++ PyStr.join ", " safe_commands)
  else
    try_except
      (emit (RunShell command) ;;
       result <- lift (subprocess_run w command) ;;
       ret (match stdout result with
            | EmptyString => PyStr.slice_to 500 (stderr result)
            | out => PyStr.slice_to 500 out
            end))
      (fun e => ret ("Command error: " ++ exn_str e)).

End Tools.
End MultipleMcp.

(** ** What the claims speak about *)

Module Catalog.

(** The forward rule: the name a tool of server [server_id] is listed under. *)
Definition namespaced_name (server_id original_name : string) : string :=
  server_id ++ "_" ++ original_name.

Definition namespaced (server_id : string) (t : tool) : tool :=
  set_name t (namespaced_name server_id (name t)).

(** The tools a server answers with when the connection, the handshake and
    the listing all succeed; [None] when any of them fails. *)
Definition listing (w : world) (ep : endpoint) : option (list tool) :=
  match connect w ep with
  | inl _ => None
  | inr s =>
      match on_initialize s, on_list_tools s with
      | None, inr tools => Some tools
      | _, _ => None
      end
  end.

(** What a tool call answers when the connection, the handshake and the
    call all succeed. *)
Definition answer (w : world) (ep : endpoint) (tool_name : string) (arguments : pyval)
  : option call_result :=
  match connect w ep with
  | inl _ => None
  | inr s =>
      match on_initialize s, on_call_tool s tool_name arguments with
      | None, inr r => Some r
      | _, _ => None
      end
  end.

(** The (server, operation) pairs returned by successful connector calls,
    in table order. *)
Definition pairs_of (server_id : string) (l : option (list tool)) : list (string * tool) :=
  match l with
  | Some tools => map (pair server_id) tools
  | None => []
  end.

Definition pairs {C : Type} (lists : C -> option (list tool)) (servers : dict C)
  : list (string * tool) :=
  flat_map (fun e => pairs_of (fst e) (lists (snd e))) servers.

Definition aws_endpoint (c : AwsMcp.server_config) : endpoint :=
  Http (AwsMcp.url c) None.

Definition aws_listing (w : world) (c : AwsMcp.server_config) : option (list tool) :=
  listing w (aws_endpoint c).

Definition aws_pairs (w : world) (servers : dict AwsMcp.server_config)
  : list (string * tool) :=
  pairs (aws_listing w) servers.

Definition external_endpoint (c : ExternalMcp.server_config) : endpoint :=
  Http (ExternalMcp.url_of c) (Some (ExternalMcp.headers_of c)).

(** Servers without a URL are not contacted. *)
Definition external_listing (w : world) (c : ExternalMcp.server_config)
  : option (list tool) :=
  if truthy (ExternalMcp.url c) then listing w (external_endpoint c) else None.

Definition external_pairs (w : world) (servers : dict ExternalMcp.server_config)
  : list (string * tool) :=
  pairs (external_listing w) servers.

Definition entry_of (p : string * tool) : tool := namespaced (fst p) (snd p).
Definition key_of (p : string * tool) : string * string := (fst p, name (snd p)).

(** Each server lists an operation name at most once. *)
Definition distinct_operations {C : Type} (lists : C -> option (list tool))
           (servers : dict C) : Prop :=
  forall server_id c tools,
    In (server_id, c) servers -> lists c = Some tools -> NoDup (map name tools).


(** Events that reach a tool server with a call. *)
Definition is_call (ev : event) : bool :=
  match ev with
  | CallTool _ _ _ => true
  | _ => false
  end.

Definition calls {A : Type} (m : M A) : list event := filter is_call (events m).

(** Events that start a subprocess. *)
Definition is_shell (ev : event) : bool :=
  match ev with
  | RunShell _ => true
  | _ => false
  end.

(** A string without the separator. *)
Fixpoint no_underscore (s : string) : bool :=
  match s with
  | EmptyString => true
  | String c s' => negb (Ascii.eqb c "_") && no_underscore s'
  end.

(** The name with a trailing ["_proxy"] removed, when it ends that way. *)
Fixpoint strip_suffix (suffix s : string) : string :=
  if String.eqb s suffix then EmptyString
  else match s with
       | EmptyString => EmptyString
       | String c s' => String c (strip_suffix suffix s')
       end.

(** The payload of a proxy call when the fallback name is the proxy
    operation's own name with its ["_proxy"] suffix stripped. *)
Definition payload_suffix_stripped (tool_name : string) (arguments : dict pyval)
  : pyval :=
  VDict [ ("tool_name",
           match dict_get arguments "tool_name" with
           | Some v => v
           | None => VStr (strip_suffix "_proxy" tool_name)
           end);
          ("arguments",
           match dict_get arguments "arguments" with
           | Some v => v
           | None => VDict arguments
           end) ].

End Catalog.

(** ** Concrete worlds and tables used to run the definitions *)

Module Samples.

Definition plain_tool (n : string) : tool := Tool n "" VNone.

Definition text_result (t : string) : call_result :=
  CallToolResult [TextContent t] false.

(** A server that lists [tools] and answers every call with ["ok"]. *)
Definition serving (tools : list tool) : session :=
  Session None (inr tools) (fun _ _ => inr (text_result "ok")).

Definition refused : exn := Exn OSError "Connection refused".
Definition no_such_file : exn := Exn OSError "No such file or directory".

(** A world with no files and no environment in which sessions are opened
    as [conn] says. *)
Definition world_of (conn : endpoint -> exn + session) : world :=
  World conn (fun _ => false) (fun _ => inl no_such_file)
        (fun _ => inl no_such_file) (fun _ => None) (fun _ => EmptyString)
        (fun _ => inr (CompletedProcess EmptyString EmptyString)).

Definition offline : world := world_of (fun _ => inl refused).

(** Every endpoint is a server with the one tool [ping]. *)
Definition online : world := world_of (fun _ => inr (serving [plain_tool "ping"])).

(** Two server directories whose identifiers overlap, [aws] and
    [aws_cost], named in [aws_mcp_config.json]: [aws] lists [cost_get] and
    [aws_cost] lists [get]. *)
Definition overlapping_files : world :=
  World
    (fun ep =>
       match ep with
       | Stdio [_; script] =>
           if String.eqb script "srv/aws/main.py"
           then inr (serving [plain_tool "cost_get"])
           else if String.eqb script "srv/aws_cost/main.py"
           then inr (serving [plain_tool "get"])
           else inl refused
       | _ => inl refused
       end)
    (fun path =>
       String.eqb path "aws_mcp_config.json"
       || String.eqb path "srv/aws/main.py"
       || String.eqb path "srv/aws_cost/main.py")
    (fun _ => inl no_such_file)
    (fun path =>
       if String.eqb path "aws_mcp_config.json"
       then inr [ ("aws", [("path", "srv/aws")]);
                  ("aws_cost", [("path", "srv/aws_cost")]) ]
       else inl no_such_file)
    (fun _ => None) (fun _ => EmptyString)
    (fun _ => inr (CompletedProcess EmptyString EmptyString)).

(** Three servers of which the second is unreachable. *)
Definition three_servers : dict AwsMcp.server_config :=
  [ ("aws_a", AwsMcp.ServerConfig "http://a/mcp" "");
    ("aws_b", AwsMcp.ServerConfig "http://b/mcp" "");
    ("aws_c", AwsMcp.ServerConfig "http://c/mcp" "") ].

Definition three_external : dict ExternalMcp.server_config :=
  [ ("a", ExternalMcp.ServerConfig (Some "http://a/mcp") None);
    ("b", ExternalMcp.ServerConfig (Some "http://b/mcp") (Some "secret"));
    ("c", ExternalMcp.ServerConfig (Some "http://c/mcp") None) ].

Definition one_down : world :=
  world_of (fun ep =>
    match ep with
    | Http u _ =>
        if String.eqb u "http://a/mcp"
        then inr (serving [plain_tool "x"; plain_tool "y"])
        else if String.eqb u "http://c/mcp"
        then inr (serving [plain_tool "z"])
        else inl refused
    | Stdio _ => inl refused
    end).

(** A configured gateway. *)
Definition gateway_config : dict string :=
  [ ("gateway_url", "https://gateway.example/mcp");
    ("gateway_id", "gw-1");
    ("access_token", "token") ].

Definition gateway_endpoint : endpoint :=
  Http "https://gateway.example/mcp" (Some (GatewayMcp.bearer "token")).

End Samples.

(** ** The entry points of agent_with_aws_mcp.py and
    agent_with_official_aws_mcp.py *)

Module Entry.

(** The module-level [agent] as far as [invoke] reads and assigns it. *)
Record agent_state : Type := AgentState
  { session_id : pyval; agent_tools : list tool }.

(** [agent(prompt)]: the content blocks of [response.message], or the
    exception the call ends with. *)
Definition agent_call : Type := agent_state -> pyval -> exn + list (dict pyval).

(** [if hasattr(context, 'session_id'):
       agent.state.set("session_id", context.session_id)];
    [context] is the attribute when the object has it. *)
Definition set_session (agent : agent_state) (context : option pyval) : agent_state :=
  match context with
  | Some sid => AgentState sid (agent_tools agent)
  | None => agent
  end.

(** [payload.get("prompt", default)]. *)
Definition prompt_of (payload : dict pyval) (default : string) : pyval :=
  match dict_get payload "prompt" with
  | Some p => p
  | None => VStr default
  end.

(** [response.message['content'][0]['text']]. *)
Definition first_text (content : list (dict pyval)) : M pyval :=
  block <- index content 0 ;;
  subscript block "text".

End Entry.

Module AwsEntry.
Import Entry.

Section Invoke.
Variable w : world.
Variable servers : dict AwsMcp.server_config.
Variable agent_run : agent_call.

(** The [try] block of [invoke]: the agent after the tools were loaded. *)
Definition load_tools (agent : agent_state) : M agent_state :=
  try_except
    (aws_tools <- AwsMcp.get_all_aws_mcp_tools w servers ;;
     match aws_tools with
     | _ :: _ =>
         print ("🚀 Loaded " ++ PyStr.of_nat (length aws_tools)
                ++ " AWS MCP tools") ;;
         ret (AgentState (session_id agent) aws_tools)
     | [] =>
         print "⚠️ No AWS MCP tools loaded - servers may not be running" ;;
         ret agent
     end)
    (fun e =>
       print ("❌ Error loading AWS MCP tools: " ++ exn_str e) ;;
       ret agent).

Definition invoke (agent : agent_state) (payload : dict pyval)
           (context : option pyval) : M pyval :=
  agent' <- load_tools (set_session agent context) ;;
  content <- lift (agent_run agent'
                     (prompt_of payload "Hello! I'm your AWS expert assistant.")) ;;
  first_text content.

End Invoke.
End AwsEntry.

Module OfficialEntry.
Import Entry.

Section Invoke.
Variable w : world.
Variable agent_run : agent_call.

Definition load_tools (agent : agent_state) : M agent_state :=
  try_except
    (aws_tools <- OfficialMcp.get_all_aws_mcp_tools w ;;
     match aws_tools with
     | _ :: _ =>
         print ("🚀 Loaded " ++ PyStr.of_nat (length aws_tools)
                ++ " official AWS MCP tools") ;;
         ret (AgentState (session_id agent) aws_tools)
     | [] =>
         print "⚠️ No official AWS MCP tools loaded" ;;
         ret agent
     end)
    (fun e =>
       print ("❌ Error loading official AWS MCP tools: " ++ exn_str e) ;;
       ret agent).

Definition invoke (agent : agent_state) (payload : dict pyval)
           (context : option pyval) : M pyval :=
  agent' <- load_tools (set_session agent context) ;;
  content <- lift (agent_run agent'
                     (prompt_of payload
                        "Hello! I'm your AWS expert assistant with official AWS MCP tools.")) ;;
  first_text content.

End Invoke.
End OfficialEntry.

(** ** The local tools of agent_with_multiple_mcp.py *)

Module LocalTools.

(** [c.upper()] for one code point below 256, as code points: the sharp s
    becomes two letters, the micro sign and the y with diaeresis leave the
    range. *)
Definition upper_char (c : ascii) : list N :=
  let n := N_of_ascii c in
  (if (97 <=? n) && (n <=? 122) then [n - 32]
   else if n =? 181 then [924]
   else if n =? 223 then [83; 83]
   else if (224 <=? n) && (n <=? 254) && negb (n =? 247) then [n - 32]
   else if n =? 255 then [376]
   else [n])%N.

(** [s.upper()]. *)
Fixpoint upper (s : string) : list N :=
  match s with
  | EmptyString => []
  | String c s' => (upper_char c ++ upper s')%list
  end.

(** [text.startswith(prefix)] on code points. *)
Fixpoint starts_with (prefix text : list N) : bool :=
  match prefix, text with
  | [], _ => true
  | _ :: _, [] => false
  | p :: prefix', t :: text' => (p =? t)%N && starts_with prefix' text'
  end.

Definition codes (s : string) : list N := map N_of_ascii (list_ascii_of_string s).

Section Tools.
(** [requests.get(url, timeout=10).text], [open(path, 'r').read()] and the
    rows of a query on the freshly made demo database as [json.dumps]
    renders them. *)
Variable http_get_text : string -> exn + string.
Variable read_text : string -> exn + string.
Variable sqlite_rows : string -> exn + string.

Definition fetch_url_data (url : string) : M string :=
  try_except
    (text <- lift (http_get_text url) ;;
     ret (PyStr.slice_to 1000 text))
    (fun e => ret ("Error fetching " ++ url ++ ": " ++ exn_str e)).

Definition read_file (file_path : string) : M string :=
  try_except
    (text <- lift (read_text file_path) ;;
     ret (PyStr.slice_to 1000 text))
    (fun e => ret ("Error reading file: " ++ exn_str e)).

Definition query_database (query : string) : M string :=
  if negb (starts_with (codes "SELECT") (upper query)) then
    ret "Only SELECT queries are allowed"
  else
    try_except
      (lift (sqlite_rows query))
      (fun e => ret ("Database error: " ++ exn_str e)).

End Tools.
End LocalTools.

(** ** More vocabulary for the properties *)

Module Traces.

(** The endpoints a computation opened a session with, in order. *)
Definition opened {A : Type} (m : M A) : list endpoint :=
  flat_map (fun ev => match ev with
                      | Open ep => [ep]
                      | _ => []
                      end) (events m).

(** The sessions a computation closed, in order. *)
Definition closed {A : Type} (m : M A) : list endpoint :=
  flat_map (fun ev => match ev with
                      | Close ep => [ep]
                      | _ => []
                      end) (events m).

(** The first exception of one call over a fresh session, if any. *)
Definition call_failure (w : world) (ep : endpoint) (tool_name : string)
           (arguments : pyval) : option exn :=
  match connect w ep with
  | inl e => Some e
  | inr s =>
      match on_initialize s with
      | Some e => Some e
      | None =>
          match on_call_tool s tool_name arguments with
          | inl e => Some e
          | inr _ => None
          end
      end
  end.

(** The sessions that open: the connection itself succeeds. *)
Definition connects (w : world) (ep : endpoint) : bool :=
  match connect w ep with
  | inr _ => true
  | inl _ => false
  end.

(** The servers [get_mcp_tools_from_servers] goes to: those with a URL. *)
Definition contacted (servers : dict ExternalMcp.server_config) : list endpoint :=
  map (fun e => Catalog.external_endpoint (snd e))
      (filter (fun e => truthy (ExternalMcp.url (snd e))) servers).

(** The tools of a local server directory: its command is found and the
    session lists them. *)
Definition official_listing (w : world) (config : dict string) : option (list tool) :=
  match dict_get config "path" with
  | None => None
  | Some server_path =>
      match OfficialMcp.server_command w server_path with
      | None => None
      | Some cmd => Catalog.listing w (Stdio cmd)
      end
  end.

(** A letter of ["select"] in either case. *)
Definition same_letter (lower : ascii) (c : ascii) : bool :=
  Ascii.eqb c lower
  || Ascii.eqb c (ascii_of_nat (nat_of_ascii lower - 32)).

(** The text begins with [word], letter case aside. *)
Fixpoint begins_with_word (word text : string) : bool :=
  match word, text with
  | EmptyString, _ => true
  | String _ _, EmptyString => false
  | String l word', String c text' => same_letter l c && begins_with_word word' text'
  end.



(** The string a dispatcher returns for a remote answer: the text of the
    first content element; the marker when there is no content; and, when
    the first element is not a text element, the caught [AttributeError]
    behind the dispatcher's error prefix. *)
Definition rendered (error_prefix empty_marker : string) (r : call_result) : string :=
  match result_content r with
  | [] => empty_marker
  | TextContent t :: _ => t
  | ImageContent _ _ :: _ =>
      error_prefix ++ "'ImageContent' object has no attribute 'text'"
  | EmbeddedResource _ :: _ =>
      error_prefix ++ "'EmbeddedResource' object has no attribute 'text'"
  end.

(** [out] is the text of the first content element, or the marker when
    there is no content. *)
Definition first_text_or_marker (empty_marker : string) (r : call_result)
           (out : string) : Prop :=
  match result_content r with
  | [] => out = empty_marker
  | TextContent t :: _ => out = t
  | _ :: _ => False
  end.

End Traces.

(** ** More concrete worlds *)

Module Fixtures.

(** The gateway's configuration file is there and the gateway lists two
    tools of the [cost] target and one other. *)
Definition gateway_tools : list tool :=
  [ Samples.plain_tool "Official_cost___get_costs";
    Samples.plain_tool "health";
    Samples.plain_tool "Official_cost___cost_proxy" ].

Definition gateway_up : world :=
  World (fun _ => inr (Samples.serving gateway_tools))
        (fun path => String.eqb path "official_mcp_gateway_config.json")
        (fun path =>
           if String.eqb path "official_mcp_gateway_config.json"
           then inr Samples.gateway_config
           else inl Samples.no_such_file)
        (fun _ => inl Samples.no_such_file)
        (fun _ => None) (fun _ => "['cost']")
        (fun _ => inr (CompletedProcess EmptyString EmptyString)).

(** The configuration file is there but holds no endpoint. *)
Definition gateway_half_configured : world :=
  World (fun _ => inr (Samples.serving gateway_tools))
        (fun path => String.eqb path "official_mcp_gateway_config.json")
        (fun _ => inr [("gateway_id", "gw-1")])
        (fun _ => inl Samples.no_such_file)
        (fun _ => None) (fun _ => EmptyString)
        (fun _ => inr (CompletedProcess EmptyString EmptyString)).

(** [aws_mcp_config.json] names two servers, the second without a path. *)
Definition path_missing : world :=
  World (fun _ => inr (Samples.serving [Samples.plain_tool "ping"]))
        (fun _ => true)
        (fun _ => inl Samples.no_such_file)
        (fun _ => inr [ ("s3", [("path", "aws-mcp/s3")]);
                        ("ec2", [("port", "8001")]) ])
        (fun _ => None) (fun _ => EmptyString)
        (fun _ => inr (CompletedProcess EmptyString EmptyString)).

(** A shell that prints six hundred characters. *)
Definition long_output : string :=
  (fix repeat (n : nat) : string :=
     match n with
     | O => EmptyString
     | S k => String "x" (repeat k)
     end) 600.

Definition chatty_shell : world :=
  World (fun _ => inl Samples.refused) (fun _ => false)
        (fun _ => inl Samples.no_such_file) (fun _ => inl Samples.no_such_file)
        (fun _ => None) (fun _ => EmptyString)
        (fun _ => inr (CompletedProcess long_output "warning")).

(** An agent that answers with one text block naming how many tools it has. *)
Definition counting_agent : Entry.agent_call :=
  fun agent _ =>
    inr [[("text", VStr (PyStr.of_nat (length (Entry.agent_tools agent))))]].

Definition fresh_agent : Entry.agent_state :=
  Entry.AgentState (VStr "default") [].

(** A server that answers every call with a picture followed by a line of
    text. *)
Definition picture_answer : call_result :=
  CallToolResult [ImageContent "iVBORw0KGgo=" "image/png";
                  TextContent "diagram saved"] false.

Definition pictures : world :=
  Samples.world_of (fun _ => inr (Session None (inr []) (fun _ _ => inr picture_answer))).




End Fixtures.

Import Catalog.
Import Traces.

(** * Properties *)

(** ** Strings *)

Lemma split_not_nil sep s : PyStr.split sep s <> [].
Proof.
  destruct s as [|c s]; simpl; [discriminate|].
  destruct (Ascii.eqb c sep); [discriminate|].
  destruct (PyStr.split sep s); discriminate.
Qed.

Lemma split_no_sep s t :
  no_underscore s = true ->
  PyStr.split "_" (s ++ String "_" t) = s :: PyStr.split "_" t.
Proof.
  induction s as [|c s IH]; simpl; intros H.
  - reflexivity.
  - apply andb_true_iff in H as [Hc Hs].
    apply negb_true_iff in Hc. rewrite Hc, (IH Hs). reflexivity.
Qed.

Lemma join_split s : PyStr.join "_" (PyStr.split "_" s) = s.
Proof.
  induction s as [|c s IH]; simpl; [reflexivity|].
  destruct (Ascii.eqb_spec c "_") as [->|Hc].
  - destruct (PyStr.split "_" s) as [|p ps] eqn:E.
    + now destruct (split_not_nil "_" s).
    + change (PyStr.join "_" ("" :: p :: ps))
        with ("" ++ "_" ++ PyStr.join "_" (p :: ps)).
      rewrite IH. reflexivity.
  - destruct (PyStr.split "_" s) as [|p ps] eqn:E.
    + now destruct (split_not_nil "_" s).
    + destruct ps as [|q qs]; simpl in *; now rewrite <- IH.
Qed.

Lemma string_app_assoc (a b c : string) : (a ++ b) ++ c = a ++ (b ++ c).
Proof. induction a; simpl; congruence. Qed.

(** The reverse parse of [execute_aws_mcp_tool] undoes the forward rule for
    server identifiers made of exactly two segments. *)
Lemma aws_parse_two_segments a b n :
  no_underscore a = true -> no_underscore b = true ->
  AwsMcp.parse_tool_name (namespaced_name (a ++ "_" ++ b) n)
  = ret (a ++ "_" ++ b, n).
Proof.
  intros Ha Hb. unfold AwsMcp.parse_tool_name, namespaced_name.
  rewrite !string_app_assoc.
  change ("_" ++ b ++ "_" ++ n) with (String "_" (b ++ String "_" n)).
  rewrite (split_no_sep a _ Ha), (split_no_sep b _ Hb).
  cbn [index nth_error bind ret skipn app]. rewrite join_split.
  reflexivity.
Qed.

(** The reverse parse of [execute_mcp_tool] undoes the forward rule for
    server identifiers made of a single segment. *)
Lemma external_parse_one_segment s n :
  no_underscore s = true ->
  ExternalMcp.parse_tool_name (namespaced_name s n) = ret (s, n).
Proof.
  intros Hs. unfold ExternalMcp.parse_tool_name, namespaced_name.
  change ("_" ++ n) with (String "_" n).
  rewrite (split_no_sep s _ Hs).
  cbn [index nth_error bind ret skipn app]. rewrite join_split.
  reflexivity.
Qed.

(** ** The effect monad *)

Lemma result_bind {A B : Type} (m : M A) (k : A -> M B) (a : A) :
  result m = Return a -> result (bind m k) = result (k a).
Proof.
  destruct m as [tr [a'|e]]; simpl; intros H; inversion H; subst.
  destruct (k a); reflexivity.
Qed.

Lemma bind_ret {A B : Type} (a : A) (k : A -> M B) : bind (ret a) k = k a.
Proof. unfold bind, ret. destruct (k a); reflexivity. Qed.

(** A [try] whose handler always returns a value returns a value. *)
Lemma try_except_returns {A : Type} (m : M A) (h : exn -> M A) :
  (forall e, exists a, result (h e) = Return a) ->
  exists a, result (try_except m h) = Return a.
Proof.
  intros Hh. destruct m as [tr [a|e]]; simpl.
  - now exists a.
  - destruct (Hh e) as [a Ha]. destruct (h e) as [tr' o]; simpl in *.
    now exists a.
Qed.

(** ** Namespacing and the reverse parse *)

(** C1. The reverse parse done at call time does not undo the forward rule
    for every registered server: [github] (one segment) is registered in
    [AWS_MCP_SERVERS], yet [execute_aws_mcp_tool] reads the first two
    segments of [github_list_repositories] as the server and finds none;
    [agentcore_gateway] (two segments) is registered in [MCP_SERVERS], yet
    [execute_mcp_tool] reads only the first segment. *)
Theorem C1_reverse_parse_misses_registered_servers :
  dict_get AwsMcp.AWS_MCP_SERVERS "github" <> None /\
  AwsMcp.parse_tool_name (namespaced_name "github" "list_repositories")
  = ret ("github_list", "repositories") /\
  (forall w arguments,
      AwsMcp.execute_aws_mcp_tool w AwsMcp.AWS_MCP_SERVERS
        (namespaced_name "github" "list_repositories") arguments
      = ret "Server github_list not found") /\
  (forall w, dict_get (ExternalMcp.MCP_SERVERS w) "agentcore_gateway" <> None) /\
  ExternalMcp.parse_tool_name (namespaced_name "agentcore_gateway" "list_tools")
  = ret ("agentcore", "gateway_list_tools") /\
  (forall w arguments,
      ExternalMcp.execute_mcp_tool w (ExternalMcp.MCP_SERVERS w)
        (namespaced_name "agentcore_gateway" "list_tools") arguments
      = ret "Server agentcore not available").
Proof.
  repeat split; try reflexivity; try discriminate.
Qed.

Lemma split_no_underscore s :
  no_underscore s = true -> PyStr.split "_" s = [s].
Proof.
  induction s as [|c s IH]; simpl; intros H; [reflexivity|].
  apply andb_true_iff in H as [Hc Hs]. apply negb_true_iff in Hc.
  rewrite Hc, (IH Hs). reflexivity.
Qed.

Lemma split_with_underscore s :
  no_underscore s = false ->
  exists p q rest, PyStr.split "_" s = p :: q :: rest.
Proof.
  induction s as [|c s IH]; simpl; intros H; [discriminate|].
  destruct (Ascii.eqb c "_") eqn:Hc; simpl in H.
  - destruct (PyStr.split "_" s) as [|q rest] eqn:E.
    + now destruct (split_not_nil "_" s).
    + now exists EmptyString, q, rest.
  - destruct (IH H) as (p & q & rest & E). rewrite E.
    now exists (String c p), q, rest.
Qed.

(** ** Dispatch: exceptions *)

(** A name without any underscore makes [execute_aws_mcp_tool] raise before
    it looks the server up. *)
Lemma aws_dispatch_raises_without_underscore w servers tool_name arguments :
  no_underscore tool_name = true ->
  AwsMcp.execute_aws_mcp_tool w servers tool_name arguments = raise index_error.
Proof.
  intros H. unfold AwsMcp.execute_aws_mcp_tool, AwsMcp.parse_tool_name.
  rewrite (split_no_underscore _ H). reflexivity.
Qed.

Lemma aws_parse_split tool_name p q rest :
  PyStr.split "_" tool_name = p :: q :: rest ->
  AwsMcp.parse_tool_name tool_name = ret (p ++ "_" ++ q, PyStr.join "_" rest).
Proof.
  intros E. unfold AwsMcp.parse_tool_name. rewrite E.
  cbv beta iota delta [index nth_error]. rewrite !bind_ret. reflexivity.
Qed.

Lemma external_parse_split tool_name p rest :
  PyStr.split "_" tool_name = p :: rest ->
  ExternalMcp.parse_tool_name tool_name = ret (p, PyStr.join "_" rest).
Proof.
  intros E. unfold ExternalMcp.parse_tool_name. rewrite E.
  cbv beta iota delta [index nth_error]. rewrite !bind_ret. reflexivity.
Qed.

(** With at least one underscore in the name, [execute_aws_mcp_tool]
    returns a string. *)
Lemma aws_dispatch_returns_with_underscore w servers tool_name arguments :
  no_underscore tool_name = false ->
  exists s, result (AwsMcp.execute_aws_mcp_tool w servers tool_name arguments)
            = Return s.
Proof.
  intros H. destruct (split_with_underscore _ H) as (p & q & rest & E).
  unfold AwsMcp.execute_aws_mcp_tool.
  rewrite (aws_parse_split _ _ _ _ E), bind_ret.
  destruct (dict_get servers (p ++ "_" ++ q)) as [config|].
  - apply try_except_returns. intros e. eexists. reflexivity.
  - eexists. reflexivity.
Qed.

(** [execute_mcp_tool] returns a string for every name. *)
Lemma external_dispatch_returns w servers tool_name arguments :
  exists s, result (ExternalMcp.execute_mcp_tool w servers tool_name arguments)
            = Return s.
Proof.
  unfold ExternalMcp.execute_mcp_tool.
  destruct (PyStr.split "_" tool_name) as [|p ps] eqn:E.
  - now destruct (split_not_nil "_" tool_name).
  - rewrite (external_parse_split _ _ _ E), bind_ret.
    destruct (ExternalMcp.available servers p) as [config|].
    + apply try_except_returns. intros e. eexists. reflexivity.
    + eexists. reflexivity.
Qed.

(** [execute_tool] returns a string when the configuration is empty or
    holds both the endpoint and the token. *)
Lemma gateway_dispatch_returns w self tool_name arguments :
  GatewayMcp.config self = [] \/
  (dict_get (GatewayMcp.config self) "gateway_url" <> None /\
   dict_get (GatewayMcp.config self) "access_token" <> None) ->
  exists s, result (GatewayMcp.execute_tool w self tool_name arguments) = Return s.
Proof.
  unfold GatewayMcp.execute_tool. intros [H | [Hu Ht]].
  - rewrite H. eexists. reflexivity.
  - destruct (GatewayMcp.config self) as [|kv cfg] eqn:E.
    + eexists. reflexivity.
    + unfold subscript.
      destruct (dict_get (kv :: cfg) "gateway_url") as [u|]; [|congruence].
      destruct (dict_get (kv :: cfg) "access_token") as [t|]; [|congruence].
      rewrite !bind_ret.
      apply try_except_returns. intros e. eexists. reflexivity.
Qed.

(** C4. The dispatcher does raise: [execute_aws_mcp_tool] indexes the
    second underscore-separated segment outside its [try] block, so a name
    with a single segment raises [IndexError]; and [execute_tool] reads the
    endpoint outside its [try] block, so a configuration without
    [gateway_url] raises [KeyError]. *)
Theorem C4_dispatch_raises_on_single_segment_name :
  (forall w servers arguments,
      AwsMcp.execute_aws_mcp_tool w servers "github" arguments
      = raise index_error) /\
  (forall w tool_name arguments,
      GatewayMcp.execute_tool w (GatewayMcp.Executor [("gateway_id", "gw-1")])
                              tool_name arguments
      = raise (key_error "gateway_url")).
Proof.
  split; intros; reflexivity.
Qed.

(** ** Dispatch: unknown servers and result normalisation *)

Lemma rendered_text prefix marker r (h : exn -> M string) :
  (forall e, result (h e) = Return (prefix ++ exn_str e)) ->
  match result (match result_content r with
                | c :: _ => text_of c
                | [] => ret marker
                end) with
  | Return a => Return a
  | Raise e => result (h e)
  end = Return (rendered prefix marker r).
Proof.
  intros Hh. unfold rendered.
  destruct (result_content r) as [|[t|d m|u] cs]; simpl;
    try reflexivity; apply Hh.
Qed.

(** One call over a fresh session that opens, initialises and answers. *)
Lemma session_call_result w ep tool_name arguments r (k : call_result -> M string)
      (h : exn -> M string) :
  answer w ep tool_name arguments = Some r ->
  result (try_except
            (with_session w ep (fun session =>
               initialize ep session ;;
               result <- call_tool ep session tool_name arguments ;;
               k result))
            h)
  = match result (k r) with
    | Return a => Return a
    | Raise e => result (h e)
    end.
Proof.
  unfold answer, with_session, initialize, call_tool, emit, lift.
  destruct (connect w ep) as [e|s]; [discriminate|].
  destruct (on_initialize s) as [e|]; [discriminate|].
  destruct (on_call_tool s tool_name arguments) as [e|r']; [discriminate|].
  intros H; inversion H; subst r'. simpl.
  destruct (k r) as [tr [a|e]]; simpl; [reflexivity|].
  destruct (h e); reflexivity.
Qed.

(** C5. When the server identifier read off the name is not a key of the
    server table, dispatch returns the "not found" / "not available" string
    and performs no event at all: no session is opened and no call is made. *)
Theorem C5_unknown_server_dispatch w tool_name arguments :
  (forall servers server_name original,
      result (AwsMcp.parse_tool_name tool_name) = Return (server_name, original) ->
      dict_get servers server_name = None ->
      result (AwsMcp.execute_aws_mcp_tool w servers tool_name arguments)
      = Return ("Server " ++ server_name ++ " not found") /\
      events (AwsMcp.execute_aws_mcp_tool w servers tool_name arguments) = []) /\
  (forall servers server_name original,
      result (ExternalMcp.parse_tool_name tool_name) = Return (server_name, original) ->
      dict_get servers server_name = None ->
      result (ExternalMcp.execute_mcp_tool w servers tool_name arguments)
      = Return ("Server " ++ server_name ++ " not available") /\
      events (ExternalMcp.execute_mcp_tool w servers tool_name arguments) = []).
Proof.
  split; intros servers server_name original Hp Hs.
  - unfold AwsMcp.execute_aws_mcp_tool.
    destruct (AwsMcp.parse_tool_name tool_name) as [tr [[s o]|e]] eqn:E;
      simpl in Hp; inversion Hp; subst.
    assert (tr = []) as ->.
    { revert E. unfold AwsMcp.parse_tool_name, index.
      destruct (nth_error _ 0); [|discriminate].
      destruct (nth_error _ 1); [|discriminate].
      rewrite !bind_ret. intros E; inversion E; reflexivity. }
    change ([], Return (server_name, original))
      with (ret (server_name, original)).
    rewrite bind_ret, Hs. split; reflexivity.
  - unfold ExternalMcp.execute_mcp_tool.
    destruct (ExternalMcp.parse_tool_name tool_name) as [tr [[s o]|e]] eqn:E;
      simpl in Hp; inversion Hp; subst.
    assert (tr = []) as ->.
    { revert E. unfold ExternalMcp.parse_tool_name, index.
      destruct (nth_error _ 0); [|discriminate].
      rewrite !bind_ret. intros E; inversion E; reflexivity. }
    change ([], Return (server_name, original))
      with (ret (server_name, original)).
    rewrite bind_ret. unfold ExternalMcp.available. rewrite Hs.
    split; reflexivity.
Qed.

Lemma C5_unknown_server_dispatch_witness :
  (result (AwsMcp.execute_aws_mcp_tool Samples.online AwsMcp.AWS_MCP_SERVERS
             "aws_lambda_list_functions" VNone)
   = Return "Server aws_lambda not found" /\
   events (AwsMcp.execute_aws_mcp_tool Samples.online AwsMcp.AWS_MCP_SERVERS
             "aws_lambda_list_functions" VNone) = []) /\
  (result (ExternalMcp.execute_mcp_tool Samples.online
             (ExternalMcp.MCP_SERVERS Samples.online) "github_list_issues" VNone)
   = Return "Server github not available" /\
   events (ExternalMcp.execute_mcp_tool Samples.online
             (ExternalMcp.MCP_SERVERS Samples.online) "github_list_issues" VNone)
   = []).
Proof.
  split.
  - apply (proj1 (C5_unknown_server_dispatch Samples.online
                    "aws_lambda_list_functions" VNone)
             AwsMcp.AWS_MCP_SERVERS "aws_lambda" "list_functions");
      reflexivity.
  - apply (proj2 (C5_unknown_server_dispatch Samples.online
                    "github_list_issues" VNone)
             (ExternalMcp.MCP_SERVERS Samples.online) "github" "list_issues");
      reflexivity.
Defined.

(** C8 (as stated) fails: the server answers the call with a picture
    followed by a line of text; the call succeeded and there is a content
    element, yet what [execute_aws_mcp_tool] and [execute_tool] return is not
    the text of the first element, which has none, but the error string made
    of the caught [AttributeError]. *)
Lemma C8_first_element_without_text :
  answer Fixtures.pictures (Http "http://localhost:8000/mcp" None)
         "generate_diagram" VNone = Some Fixtures.picture_answer /\
  result (AwsMcp.execute_aws_mcp_tool Fixtures.pictures AwsMcp.AWS_MCP_SERVERS
            "aws_diagram_generate_diagram" VNone)
  = Return "Tool execution error: 'ImageContent' object has no attribute 'text'" /\
  result (GatewayMcp.execute_tool Fixtures.pictures
            (GatewayMcp.Executor Samples.gateway_config) "Official_diagram" [])
  = Return "Gateway tool execution error: 'ImageContent' object has no attribute 'text'" /\
  ~ first_text_or_marker "No result" Fixtures.picture_answer
      "Tool execution error: 'ImageContent' object has no attribute 'text'" /\
  ~ first_text_or_marker "Tool executed successfully" Fixtures.picture_answer
      "Gateway tool execution error: 'ImageContent' object has no attribute 'text'".
Proof.
  repeat split; try reflexivity; intros H; exact H.
Qed.

(** C8 (amended). After a remote call that succeeded, dispatch returns: the
    text of the first content element when that element is a text element;
    the empty-result marker (["No result"] for the direct routers,
    ["Tool executed successfully"] for the gateway) when the answer has no
    content; and, when the first element is an image or an embedded
    resource, the error string of the dispatcher (["Tool execution error: "],
    for the gateway ["Gateway tool execution error: "]) followed by the text
    of the [AttributeError] that reading [.text] raised. *)
Theorem C8_dispatch_result_normalization w tool_name r :
  (forall servers arguments server_name original config,
      result (AwsMcp.parse_tool_name tool_name) = Return (server_name, original) ->
      dict_get servers server_name = Some config ->
      answer w (aws_endpoint config) original arguments = Some r ->
      result (AwsMcp.execute_aws_mcp_tool w servers tool_name arguments)
      = Return (rendered "Tool execution error: " "No result" r)) /\
  (forall servers arguments server_name original config,
      result (ExternalMcp.parse_tool_name tool_name) = Return (server_name, original) ->
      ExternalMcp.available servers server_name = Some config ->
      answer w (external_endpoint config) original arguments = Some r ->
      result (ExternalMcp.execute_mcp_tool w servers tool_name arguments)
      = Return (rendered "Tool execution error: " "No result" r)) /\
  (forall self arguments gateway_url access_token,
      dict_get (GatewayMcp.config self) "gateway_url" = Some gateway_url ->
      dict_get (GatewayMcp.config self) "access_token" = Some access_token ->
      answer w (Http gateway_url (Some (GatewayMcp.bearer access_token))) tool_name
             (if PyStr.contains "_proxy" tool_name
              then GatewayMcp.proxy_payload tool_name arguments
              else VDict arguments) = Some r ->
      result (GatewayMcp.execute_tool w self tool_name arguments)
      = Return (rendered "Gateway tool execution error: "
                         "Tool executed successfully" r)).
Proof.
  split; [|split].
  - intros servers arguments server_name original config Hp Hs Ha.
    unfold AwsMcp.execute_aws_mcp_tool.
    rewrite (result_bind _ _ _ Hp). cbv beta iota. rewrite Hs.
    rewrite (session_call_result _ _ _ _ _ _ _ Ha).
    apply rendered_text. reflexivity.
  - intros servers arguments server_name original config Hp Hs Ha.
    unfold ExternalMcp.execute_mcp_tool.
    rewrite (result_bind _ _ _ Hp). cbv beta iota. rewrite Hs.
    rewrite (session_call_result _ _ _ _ _ _ _ Ha).
    apply rendered_text. reflexivity.
  - intros self arguments gateway_url access_token Hu Ht Ha.
    unfold GatewayMcp.execute_tool.
    destruct (GatewayMcp.config self) as [|kv cfg] eqn:E; [discriminate|].
    unfold subscript. rewrite Hu, Ht, !bind_ret.
    revert Ha.
    unfold answer, rendered, with_session, initialize, call_tool, emit, lift, print.
    destruct (connect w _) as [e|s]; [discriminate|].
    destruct (on_initialize s) as [e|]; [discriminate|].
    destruct (PyStr.contains "_proxy" tool_name);
      (destruct (on_call_tool s tool_name _) as [e|r']; [discriminate|]);
      intros H; inversion H; subst r';
      destruct r as [[|[t|d m|u] cs] err]; reflexivity.
Qed.

Lemma C8_dispatch_result_normalization_witness :
  result (AwsMcp.execute_aws_mcp_tool Samples.online AwsMcp.AWS_MCP_SERVERS
            "aws_cost_get_monthly_costs" VNone) = Return "ok" /\
  result (ExternalMcp.execute_mcp_tool Samples.online
            (ExternalMcp.MCP_SERVERS Samples.online) "filesystem_read_file" VNone)
  = Return "ok" /\
  result (GatewayMcp.execute_tool Samples.online
            (GatewayMcp.Executor Samples.gateway_config) "cost_proxy" [])
  = Return "ok" /\
  result (ExternalMcp.execute_mcp_tool Fixtures.pictures
            (ExternalMcp.MCP_SERVERS Fixtures.pictures) "database_draw" VNone)
  = Return "Tool execution error: 'ImageContent' object has no attribute 'text'".
Proof.
  split; [|split; [|split]].
  - eapply (proj1 (C8_dispatch_result_normalization Samples.online
                     "aws_cost_get_monthly_costs" (Samples.text_result "ok")));
      reflexivity.
  - eapply (proj1 (proj2 (C8_dispatch_result_normalization Samples.online
                     "filesystem_read_file" (Samples.text_result "ok"))));
      reflexivity.
  - eapply (proj2 (proj2 (C8_dispatch_result_normalization Samples.online
                     "cost_proxy" (Samples.text_result "ok"))));
      reflexivity.
  - eapply (proj1 (proj2 (C8_dispatch_result_normalization Fixtures.pictures
                     "database_draw" Fixtures.picture_answer)));
      reflexivity.
Defined.

(** ** Aggregation *)

Lemma append_prefixed_map server_name tools : forall acc,
  append_prefixed server_name acc tools
  = (acc ++ map (namespaced server_name) tools)%list.
Proof.
  unfold append_prefixed.
  induction tools as [|t tools IH]; intros acc; simpl.
  - now rewrite app_nil_r.
  - rewrite IH, <- app_assoc. reflexivity.
Qed.

Lemma entries_of_pairs server_id l :
  map entry_of (pairs_of server_id l)
  = match l with
    | Some tools => map (namespaced server_id) tools
    | None => []
    end.
Proof.
  destruct l as [tools|]; simpl; [|reflexivity].
  rewrite map_map. reflexivity.
Qed.

(** What one connector call of [agent_with_aws_mcp.py] returns. *)
Lemma aws_connector_result w server_name config :
  result (AwsMcp.connect_to_mcp_server w server_name config)
  = Return (map entry_of (pairs_of server_name (aws_listing w config))).
Proof.
  rewrite entries_of_pairs.
  unfold AwsMcp.connect_to_mcp_server, aws_listing, listing, aws_endpoint,
    with_session, initialize, list_tools, emit, lift, print.
  destruct (connect w _) as [e|s]; [reflexivity|].
  destruct (on_initialize s) as [e|]; [reflexivity|].
  destruct (on_list_tools s) as [e|tools]; [reflexivity|].
  simpl. rewrite append_prefixed_map. reflexivity.
Qed.

Lemma pairs_cons {C : Type} (lists : C -> option (list tool)) server_id c rest :
  pairs lists ((server_id, c) :: rest)
  = (pairs_of server_id (lists c) ++ pairs lists rest)%list.
Proof. reflexivity. Qed.

Lemma aws_collect_result w : forall entries all_tools,
  result (AwsMcp.collect w entries all_tools)
  = Return (all_tools ++ map entry_of (aws_pairs w entries))%list.
Proof.
  induction entries as [|[server_name config] rest IH]; intros all_tools.
  - simpl. now rewrite app_nil_r.
  - cbn [AwsMcp.collect].
    rewrite (result_bind _ _ _ (aws_connector_result w server_name config)).
    rewrite IH. unfold aws_pairs. rewrite pairs_cons, map_app, app_assoc.
    reflexivity.
Qed.

(** One turn of the loop of [get_mcp_tools_from_servers]. *)
Lemma external_step_result w server_name config all_tools :
  truthy (ExternalMcp.url config) = true ->
  let ep := external_endpoint config in
  result
    (try_except
       (with_session w ep (fun session =>
          initialize ep session ;;
          tools <- list_tools ep session ;;
          let all_tools' := append_prefixed server_name all_tools tools in
          print ("Connected to " ++ server_name ++ ": "
                 ++ PyStr.of_nat (length tools) ++ " tools") ;;
          ret all_tools'))
       (fun e =>
          print ("Failed to connect to " ++ server_name ++ ": " ++ exn_str e) ;;
          ret all_tools))
  = Return (all_tools
            ++ map entry_of (pairs_of server_name (external_listing w config)))%list.
Proof.
  intros Hu ep. rewrite entries_of_pairs.
  unfold external_listing. rewrite Hu. subst ep.
  unfold listing, with_session, initialize, list_tools, emit, lift, print.
  destruct (connect w _) as [e|s]; [simpl; now rewrite app_nil_r|].
  destruct (on_initialize s) as [e|]; [simpl; now rewrite app_nil_r|].
  destruct (on_list_tools s) as [e|tools]; [simpl; now rewrite app_nil_r|].
  simpl. rewrite append_prefixed_map. reflexivity.
Qed.

Lemma external_collect_result w : forall entries all_tools,
  result (ExternalMcp.collect w entries all_tools)
  = Return (all_tools ++ map entry_of (external_pairs w entries))%list.
Proof.
  induction entries as [|[server_name config] rest IH]; intros all_tools.
  - simpl. now rewrite app_nil_r.
  - cbn [ExternalMcp.collect]. unfold external_pairs. rewrite pairs_cons.
    destruct (truthy (ExternalMcp.url config)) eqn:Hu; cbn [negb].
    + rewrite (result_bind _ _ _
                 (external_step_result w server_name config all_tools Hu)).
      rewrite IH, map_app, app_assoc. reflexivity.
    + rewrite IH. unfold external_listing at 1. rewrite Hu. reflexivity.
Qed.

(** The pairs are exactly those listed by the servers that answered. *)
Lemma in_pairs {C : Type} (lists : C -> option (list tool)) (servers : dict C)
      server_id t :
  In (server_id, t) (pairs lists servers) <->
  exists c tools,
    In (server_id, c) servers /\ lists c = Some tools /\ In t tools.
Proof.
  unfold pairs. rewrite in_flat_map. split.
  - intros [[sid c] [Hin Hp]]. simpl in Hp.
    destruct (lists c) as [tools|] eqn:E; simpl in Hp; [|contradiction].
    apply in_map_iff in Hp as [t' [Heq Ht]]. inversion Heq; subst.
    now exists c, tools.
  - intros (c & tools & Hin & Hl & Ht).
    exists (server_id, c). split; [assumption|]. simpl. rewrite Hl.
    simpl. now apply in_map.
Qed.

Lemma pairs_fst_in_keys {C : Type} (lists : C -> option (list tool))
      (servers : dict C) p :
  In p (pairs lists servers) -> In (fst p) (keys servers).
Proof.
  destruct p as [sid t]. intros H.
  apply in_pairs in H as (c & tools & Hin & _ & _).
  unfold keys. apply in_map_iff. now exists (sid, c).
Qed.

Lemma pairs_keys_nodup {C : Type} (lists : C -> option (list tool))
      (servers : dict C) :
  NoDup (keys servers) -> distinct_operations lists servers ->
  NoDup (map key_of (pairs lists servers)).
Proof.
  induction servers as [|[sid c] rest IH]; intros Hk Hd.
  - constructor.
  - rewrite pairs_cons, map_app. inversion Hk as [|? ? Hnotin Hrest]; subst.
    apply NoDup_app.
    + destruct (lists c) as [tools|] eqn:E; simpl; [|constructor].
      rewrite map_map. unfold key_of; simpl.
      specialize (Hd sid c tools (or_introl eq_refl) E).
      clear -Hd. induction tools as [|t ts IHt]; simpl; [constructor|].
      inversion Hd; subst. constructor; [|now apply IHt].
      rewrite in_map_iff. intros [t' [Heq Ht']]. inversion Heq as [Hn].
      apply H1. rewrite <- Hn. now apply in_map.
    + apply IH; [assumption|].
      intros sid' c' tools Hin. apply (Hd sid' c' tools). now right.
    + intros k Hk1 Hk2.
      apply in_map_iff in Hk1 as [p1 [<- Hp1]].
      apply in_map_iff in Hk2 as [p2 [Heq Hp2]].
      apply pairs_fst_in_keys in Hp2.
      destruct (lists c) as [tools|]; simpl in Hp1; [|contradiction].
      apply in_map_iff in Hp1 as [t [<- _]].
      unfold key_of in Heq. simpl in Heq. inversion Heq as [[Hf Hn]].
      apply Hnotin. simpl. now rewrite <- Hf.
Qed.

Lemma entry_names ps :
  map name (map entry_of ps)
  = map (fun p => namespaced_name (fst p) (name (snd p))) ps.
Proof. rewrite map_map. reflexivity. Qed.

(** C2. Over a table with pairwise distinct identifiers, the merged list
    holds, position by position, one entry for every (server, operation)
    pair returned by a successful connector call, named
    [server_id ++ "_" ++ original_name]; the pairs are all those the
    answering servers listed, so none is dropped, and they are pairwise
    distinct as soon as no server lists an operation name twice, so none is
    duplicated. *)
Theorem C2_catalog_completeness w :
  (forall servers,
      NoDup (keys servers) ->
      result (AwsMcp.get_all_aws_mcp_tools w servers)
      = Return (map entry_of (aws_pairs w servers)) /\
      map name (map entry_of (aws_pairs w servers))
      = map (fun p => fst p ++ "_" ++ name (snd p)) (aws_pairs w servers) /\
      (forall server_id t,
          In (server_id, t) (aws_pairs w servers) <->
          exists c tools, In (server_id, c) servers /\
                          aws_listing w c = Some tools /\ In t tools) /\
      (distinct_operations (aws_listing w) servers ->
       NoDup (map key_of (aws_pairs w servers)))) /\
  (forall servers,
      NoDup (keys servers) ->
      result (ExternalMcp.get_mcp_tools_from_servers w servers)
      = Return (map entry_of (external_pairs w servers)) /\
      map name (map entry_of (external_pairs w servers))
      = map (fun p => fst p ++ "_" ++ name (snd p)) (external_pairs w servers) /\
      (forall server_id t,
          In (server_id, t) (external_pairs w servers) <->
          exists c tools, In (server_id, c) servers /\
                          external_listing w c = Some tools /\ In t tools) /\
      (distinct_operations (external_listing w) servers ->
       NoDup (map key_of (external_pairs w servers)))).
Proof.
  split; intros servers Hk.
  - split; [apply (aws_collect_result w servers [])|].
    split; [apply entry_names|].
    split; [intros; apply in_pairs|].
    intros Hd. now apply pairs_keys_nodup.
  - split; [apply (external_collect_result w servers [])|].
    split; [apply entry_names|].
    split; [intros; apply in_pairs|].
    intros Hd. now apply pairs_keys_nodup.
Qed.

Lemma C2_catalog_completeness_witness :
  result (AwsMcp.get_all_aws_mcp_tools Samples.one_down Samples.three_servers)
  = Return [Samples.plain_tool "aws_a_x"; Samples.plain_tool "aws_a_y";
            Samples.plain_tool "aws_c_z"] /\
  result (ExternalMcp.get_mcp_tools_from_servers Samples.one_down
            Samples.three_external)
  = Return [Samples.plain_tool "a_x"; Samples.plain_tool "a_y";
            Samples.plain_tool "c_z"].
Proof.
  split.
  - refine (proj1 (proj1 (C2_catalog_completeness Samples.one_down)
                         Samples.three_servers _)).
    repeat constructor; simpl; intuition discriminate.
  - refine (proj1 (proj2 (C2_catalog_completeness Samples.one_down)
                         Samples.three_external _)).
    repeat constructor; simpl; intuition discriminate.
Defined.

(** A server whose connection, handshake or listing fails adds nothing, and
    the loop goes on with what it had. *)
Lemma aws_failed_server_skipped w server_name config rest all_tools :
  aws_listing w config = None ->
  result (AwsMcp.connect_to_mcp_server w server_name config) = Return [] /\
  result (AwsMcp.collect w ((server_name, config) :: rest) all_tools)
  = result (AwsMcp.collect w rest all_tools).
Proof.
  intros H. split.
  - rewrite aws_connector_result, H. reflexivity.
  - rewrite !aws_collect_result. unfold aws_pairs. rewrite pairs_cons, H.
    reflexivity.
Qed.

Lemma external_failed_server_skipped w server_name config rest all_tools :
  external_listing w config = None ->
  result (ExternalMcp.collect w ((server_name, config) :: rest) all_tools)
  = result (ExternalMcp.collect w rest all_tools).
Proof.
  intros H. rewrite !external_collect_result. unfold external_pairs.
  rewrite pairs_cons, H. reflexivity.
Qed.

Lemma pairs_include {C : Type} (lists : C -> option (list tool)) (servers : dict C)
      server_id c tools :
  In (server_id, c) servers -> lists c = Some tools ->
  incl (map (namespaced server_id) tools) (map entry_of (pairs lists servers)).
Proof.
  intros Hin Hl t Ht. apply in_map_iff in Ht as [t0 [<- Ht0]].
  apply in_map_iff. exists (server_id, t0). split; [reflexivity|].
  apply in_pairs. now exists c, tools.
Qed.

(** C3. Whatever subset of the servers fails to connect, to initialise or to
    list its tools, aggregation returns a merged list, and that list contains
    every namespaced tool of every server that answered; the merged list is
    the one obtained from the table without the failing servers. *)
Theorem C3_partial_failure_isolation w :
  (forall servers,
      exists merged,
        result (AwsMcp.get_all_aws_mcp_tools w servers) = Return merged /\
        (forall server_id c tools,
            In (server_id, c) servers -> aws_listing w c = Some tools ->
            incl (map (namespaced server_id) tools) merged) /\
        result (AwsMcp.get_all_aws_mcp_tools w
                  (filter (fun e => match aws_listing w (snd e) with
                                    | Some _ => true
                                    | None => false
                                    end) servers))
        = Return merged) /\
  (forall servers,
      exists merged,
        result (ExternalMcp.get_mcp_tools_from_servers w servers) = Return merged /\
        (forall server_id c tools,
            In (server_id, c) servers -> external_listing w c = Some tools ->
            incl (map (namespaced server_id) tools) merged) /\
        result (ExternalMcp.get_mcp_tools_from_servers w
                  (filter (fun e => match external_listing w (snd e) with
                                    | Some _ => true
                                    | None => false
                                    end) servers))
        = Return merged).
Proof.
  assert (Hfilter : forall (C : Type) (lists : C -> option (list tool))
                           (servers : dict C),
             pairs lists (filter (fun e => match lists (snd e) with
                                           | Some _ => true
                                           | None => false
                                           end) servers)
             = pairs lists servers).
  { intros C lists servers.
    induction servers as [|[sid c] rest IH]; [reflexivity|].
    cbn [filter snd]. destruct (lists c) as [tools|] eqn:E.
    - rewrite !pairs_cons, E, IH. reflexivity.
    - rewrite pairs_cons, E, IH. reflexivity. }
  split; intros servers.
  - exists (map entry_of (aws_pairs w servers)). repeat split.
    + apply (aws_collect_result w servers []).
    + intros sid c tools Hin Hl. now apply (pairs_include (aws_listing w) servers sid c).
    + unfold AwsMcp.get_all_aws_mcp_tools. rewrite aws_collect_result.
      unfold aws_pairs. rewrite Hfilter. reflexivity.
  - exists (map entry_of (external_pairs w servers)). repeat split.
    + apply (external_collect_result w servers []).
    + intros sid c tools Hin Hl.
      now apply (pairs_include (external_listing w) servers sid c).
    + unfold ExternalMcp.get_mcp_tools_from_servers.
      rewrite external_collect_result.
      unfold external_pairs. rewrite Hfilter. reflexivity.
Qed.

Lemma C3_partial_failure_isolation_witness :
  exists merged,
    result (AwsMcp.get_all_aws_mcp_tools Samples.one_down Samples.three_servers)
    = Return merged /\
    incl [Samples.plain_tool "aws_a_x"; Samples.plain_tool "aws_a_y"] merged /\
    incl [Samples.plain_tool "aws_c_z"] merged.
Proof.
  destruct (proj1 (C3_partial_failure_isolation Samples.one_down)
                  Samples.three_servers) as [merged [Hr [Hin _]]].
  exists merged. split; [exact Hr|]. split.
  - apply (Hin "aws_a" (AwsMcp.ServerConfig "http://a/mcp" "")
               [Samples.plain_tool "x"; Samples.plain_tool "y"]).
    + simpl. auto.
    + reflexivity.
  - apply (Hin "aws_c" (AwsMcp.ServerConfig "http://c/mcp" "")
               [Samples.plain_tool "z"]).
    + simpl. auto.
    + reflexivity.
Defined.

(** ** The gateway *)

(** Every [Open] event of a concrete trace names the expected endpoint. *)
Ltac open_events :=
  let H := fresh "H" in
  intros ? H; simpl in H;
  repeat (destruct H as [H|H]; [inversion H; reflexivity|]);
  contradiction.

(** C7 (as stated) fails: for the proxy operation [http_proxy_proxy] called
    without [tool_name], stripping the suffix gives [http_proxy], but the
    adapter sends [http]: every occurrence of ["_proxy"] is removed. *)
Lemma C7_suffix_is_not_what_is_stripped :
  PyStr.contains "_proxy" "http_proxy_proxy" = true /\
  payload_suffix_stripped "http_proxy_proxy" []
  = VDict [("tool_name", VStr "http_proxy"); ("arguments", VDict [])] /\
  calls (GatewayMcp.execute_tool Samples.online
           (GatewayMcp.Executor Samples.gateway_config) "http_proxy_proxy" [])
  = [CallTool Samples.gateway_endpoint "http_proxy_proxy"
       (VDict [("tool_name", VStr "http"); ("arguments", VDict [])])] /\
  calls (GatewayMcp.execute_tool Samples.online
           (GatewayMcp.Executor Samples.gateway_config) "http_proxy_proxy" [])
  <> [CallTool Samples.gateway_endpoint "http_proxy_proxy"
        (payload_suffix_stripped "http_proxy_proxy" [])].
Proof.
  repeat split; try reflexivity. discriminate.
Qed.

(** C7 (amended). A call of a proxy operation, with the gateway configured,
    opens no session but the gateway's and makes at most one call, which is
    to the proxy operation itself on the gateway with the payload
    [{tool_name: t, arguments: a}], [t] being [A["tool_name"]] when present
    and otherwise the operation's name with every occurrence of ["_proxy"]
    removed, [a] being [A["arguments"]] when present and otherwise [A]; the
    call is made whenever the session opens and initialises. *)
Theorem C7_gateway_proxy_repackaging w self tool_name arguments
        gateway_url access_token :
  PyStr.contains "_proxy" tool_name = true ->
  dict_get (GatewayMcp.config self) "gateway_url" = Some gateway_url ->
  dict_get (GatewayMcp.config self) "access_token" = Some access_token ->
  let ep := Http gateway_url (Some (GatewayMcp.bearer access_token)) in
  let t := match dict_get arguments "tool_name" with
           | Some v => v
           | None => VStr (PyStr.replace "_proxy" "" tool_name)
           end in
  let a := match dict_get arguments "arguments" with
           | Some v => v
           | None => VDict arguments
           end in
  let sent := CallTool ep tool_name (VDict [("tool_name", t); ("arguments", a)]) in
  let m := GatewayMcp.execute_tool w self tool_name arguments in
  (calls m = [] \/ calls m = [sent]) /\
  (forall ep', In (Open ep') (events m) -> ep' = ep) /\
  (forall s, connect w ep = inr s -> on_initialize s = None -> calls m = [sent]).
Proof.
  intros Hproxy Hu Ht ep t a sent m. subst m sent t a.
  unfold GatewayMcp.execute_tool.
  destruct (GatewayMcp.config self) as [|kv cfg] eqn:E; [discriminate|].
  unfold subscript. rewrite Hu, Ht, !bind_ret, Hproxy.
  fold ep. unfold GatewayMcp.proxy_payload.
  unfold calls, with_session, initialize, call_tool, emit, lift, print.
  destruct (connect w ep) as [e|s] eqn:Hc.
  - simpl. split; [left; reflexivity|]. split; [open_events|discriminate].
  - destruct (on_initialize s) as [e|] eqn:Hi.
    + simpl. split; [left; reflexivity|]. split; [open_events|].
      intros s' Hs' Hi'. inversion Hs'; subst. congruence.
    + destruct (on_call_tool s tool_name _) as [e|r].
      * simpl. split; [right; reflexivity|]. split; [open_events|reflexivity].
      * destruct r as [[|[txt|d mt|u] cs] err]; simpl;
          (split; [right; reflexivity|]); (split; [open_events|reflexivity]).
Qed.

Lemma C7_gateway_proxy_repackaging_witness :
  calls (GatewayMcp.execute_tool Samples.online
           (GatewayMcp.Executor Samples.gateway_config) "cost_proxy"
           [("tool_name", VStr "get_monthly_costs");
            ("arguments", VDict [("months", VInt 3)])])
  = [CallTool Samples.gateway_endpoint "cost_proxy"
       (VDict [("tool_name", VStr "get_monthly_costs");
               ("arguments", VDict [("months", VInt 3)])])].
Proof.
  refine (proj2 (proj2 (C7_gateway_proxy_repackaging Samples.online
            (GatewayMcp.Executor Samples.gateway_config) "cost_proxy"
            [("tool_name", VStr "get_monthly_costs");
             ("arguments", VDict [("months", VInt 3)])]
            "https://gateway.example/mcp" "token" _ _ _))
            (Samples.serving [Samples.plain_tool "ping"]) _ _);
    reflexivity.
Defined.

(** ** Missing configuration *)

(** C9. When the configuration file is absent, discovery prints its
    diagnostic and returns the empty list, for the local servers and for the
    gateway alike, and a gateway executor created then answers every call
    with ["Gateway not configured"], without any other effect. *)
Theorem C9_missing_configuration_is_recoverable w :
  (path_exists w OfficialMcp.config_path = false ->
   OfficialMcp.get_all_aws_mcp_tools w
   = ([Print "❌ AWS MCP config not found. Run setup_aws_official_mcp.py first"],
      Return [])) /\
  (path_exists w GatewayMcp.config_path = false ->
   GatewayMcp.connect_to_gateway w
   = ([Print "❌ Gateway config not found. Run setup_gateway_with_official_mcp.py first"],
      Return [])) /\
  (forall e tool_name arguments,
      read_gateway_config w GatewayMcp.config_path = inl e ->
      GatewayMcp.execute_tool w (GatewayMcp.new_executor w) tool_name arguments
      = ret "Gateway not configured").
Proof.
  repeat split.
  - intros H. unfold OfficialMcp.get_all_aws_mcp_tools. rewrite H. reflexivity.
  - intros H. unfold GatewayMcp.connect_to_gateway. rewrite H. reflexivity.
  - intros e tool_name arguments H.
    unfold GatewayMcp.execute_tool, GatewayMcp.new_executor, GatewayMcp._load_config.
    rewrite H. reflexivity.
Qed.

Lemma C9_missing_configuration_is_recoverable_witness :
  result (OfficialMcp.get_all_aws_mcp_tools Samples.offline) = Return [] /\
  result (GatewayMcp.connect_to_gateway Samples.offline) = Return [] /\
  result (GatewayMcp.execute_tool Samples.offline
            (GatewayMcp.new_executor Samples.offline) "cost_proxy" [])
  = Return "Gateway not configured".
Proof.
  destruct (C9_missing_configuration_is_recoverable Samples.offline)
    as [H1 [H2 H3]].
  split; [|split].
  - rewrite (H1 eq_refl). reflexivity.
  - rewrite (H2 eq_refl). reflexivity.
  - rewrite (H3 Samples.no_such_file "cost_proxy" [] eq_refl). reflexivity.
Defined.

(** ** run_command *)

Lemma take_word_split_ws s :
  hd_error (PyStr.split_ws s) = PyStr.first_token s.
Proof.
  unfold PyStr.first_token.
  induction s as [|c s IH]; [reflexivity|].
  cbn [PyStr.split_ws PyStr.drop_space].
  destruct (PyStr.is_space c) eqn:Hc; [exact IH|].
  cbn [PyStr.take_word]. rewrite Hc.
  destruct s as [|c' s']; [reflexivity|].
  destruct (PyStr.is_space c') eqn:Hc'.
  - cbn [PyStr.take_word]. rewrite Hc'. reflexivity.
  - revert IH. cbn [PyStr.drop_space]. rewrite Hc'.
    destruct (PyStr.split_ws (String c' s')) as [|p ps]; simpl; intros IH.
    + discriminate.
    + inversion IH. reflexivity.
Qed.

Lemma mem_In x l : PyStr.mem x l = true <-> In x l.
Proof.
  unfold PyStr.mem. rewrite existsb_exists. split.
  - intros [y [Hy Heq]]. apply String.eqb_eq in Heq. now subst.
  - intros H. exists x. split; [assumption|apply String.eqb_refl].
Qed.

Lemma refused_first_token command :
  MultipleMcp.refused (PyStr.split_ws command)
  = match PyStr.first_token command with
    | Some first => negb (PyStr.mem first MultipleMcp.safe_commands)
    | None => true
    end.
Proof.
  rewrite <- take_word_split_ws.
  destruct (PyStr.split_ws command); reflexivity.
Qed.

(** C10. Only the first white-space-delimited token of the command is
    checked against the list of safe commands.  When it is in the list, the
    whole original string is handed to the shell, once; when it is not, or
    when there is no token, the refusal naming the safe commands is returned
    and nothing is run.  In every case a string is returned. *)
Theorem C10_run_command_checks_first_token_only w command :
  (forall first,
      PyStr.first_token command = Some first ->
      In first MultipleMcp.safe_commands ->
      filter is_shell (events (MultipleMcp.run_command w command))
      = [RunShell command]) /\
  (PyStr.first_token command = None \/
   (exists first, PyStr.first_token command = Some first /\
                  ~ In first MultipleMcp.safe_commands) ->
   MultipleMcp.run_command w command
   = ret "Command not allowed. Safe commands: ls, pwd, date, whoami, df, free") /\
  (exists s, result (MultipleMcp.run_command w command) = Return s).
Proof.
  unfold MultipleMcp.run_command. rewrite refused_first_token.
  split; [|split].
  - intros first Hf Hin. rewrite Hf.
    apply mem_In in Hin. rewrite Hin. cbn [negb].
    unfold emit, lift. destruct (subprocess_run w command) as [e|r]; reflexivity.
  - intros [Hf | [first [Hf Hin]]]; rewrite Hf; [reflexivity|].
    destruct (PyStr.mem first MultipleMcp.safe_commands) eqn:Hm; [|reflexivity].
    apply mem_In in Hm. contradiction.
  - destruct (match PyStr.first_token command with
              | Some first => negb (PyStr.mem first MultipleMcp.safe_commands)
              | None => true
              end).
    + eexists. reflexivity.
    + apply try_except_returns. intros e. eexists. reflexivity.
Qed.

Lemma C10_run_command_checks_first_token_only_witness :
  filter is_shell (events (MultipleMcp.run_command Samples.offline
                             "ls -la; rm -rf /tmp/x && echo $(whoami)"))
  = [RunShell "ls -la; rm -rf /tmp/x && echo $(whoami)"] /\
  MultipleMcp.run_command Samples.offline "rm -rf /"
  = ret "Command not allowed. Safe commands: ls, pwd, date, whoami, df, free" /\
  MultipleMcp.run_command Samples.offline "   "
  = ret "Command not allowed. Safe commands: ls, pwd, date, whoami, df, free".
Proof.
  split; [|split].
  - apply (proj1 (C10_run_command_checks_first_token_only Samples.offline
                    "ls -la; rm -rf /tmp/x && echo $(whoami)") "ls").
    + reflexivity.
    + simpl. auto.
  - apply (proj1 (proj2 (C10_run_command_checks_first_token_only Samples.offline
                           "rm -rf /"))).
    right. exists "rm". split; [reflexivity|].
    simpl. intuition discriminate.
  - apply (proj1 (proj2 (C10_run_command_checks_first_token_only Samples.offline
                           "   "))).
    left. reflexivity.
Defined.

(** ** The fallback name of a proxy operation *)

Lemma string_length_app (a b : string) :
  String.length (a ++ b) = String.length a + String.length b.
Proof. induction a; simpl; congruence. Qed.

Lemma strip_suffix_unfold suffix s :
  strip_suffix suffix s
  = if String.eqb s suffix then EmptyString
    else match s with
         | EmptyString => EmptyString
         | String c s' => String c (strip_suffix suffix s')
         end.
Proof. destruct s; reflexivity. Qed.

(** Stripping the suffix undoes appending it. *)
Lemma strip_suffix_app base suffix : strip_suffix suffix (base ++ suffix) = base.
Proof.
  induction base as [|c base IH]; rewrite strip_suffix_unfold.
  - simpl. now rewrite String.eqb_refl.
  - destruct (String.eqb_spec ((String c base) ++ suffix) suffix) as [E|_].
    + apply (f_equal String.length) in E.
      rewrite string_length_app in E. simpl in E. lia.
    + simpl. now rewrite IH.
Qed.

Lemma replace_from_step o old' new c s :
  PyStr.replace_from (String o old') new 0 (String c s)
  = if prefix (String o old') (String c s)
    then new ++ PyStr.replace_from (String o old') new (String.length old') s
    else String c (PyStr.replace_from (String o old') new 0 s).
Proof. reflexivity. Qed.

Lemma prefix_proxy_app c b :
  prefix "_proxy" (String c b) = false ->
  prefix "_proxy" (String c (b ++ "_proxy")) = false.
Proof.
  intros H.
  destruct b as [|c1 [|c2 [|c3 [|c4 [|c5 b]]]]]; cbn [prefix append] in *;
    repeat match goal with
           | |- context [ascii_dec ?x ?y] =>
               destruct (ascii_dec x y); try discriminate; try reflexivity
           end; try assumption.
  destruct b; discriminate.
Qed.

(** On a name made by appending ["_proxy"] to a text that does not contain
    it, as the gateway set-up names its proxy tools, removing every
    occurrence and stripping the suffix are the same. *)
Lemma replace_proxy_is_suffix_strip base :
  PyStr.contains "_proxy" base = false ->
  PyStr.replace "_proxy" "" (base ++ "_proxy") = base /\
  strip_suffix "_proxy" (base ++ "_proxy") = base.
Proof.
  intros H. split; [|apply strip_suffix_app].
  unfold PyStr.replace.
  induction base as [|c base IH]; [reflexivity|].
  change (PyStr.contains "_proxy" (String c base))
    with (prefix "_proxy" (String c base) || PyStr.contains "_proxy" base) in H.
  apply orb_false_iff in H as [Hp Hc].
  change ((String c base) ++ "_proxy") with (String c (base ++ "_proxy")).
  rewrite replace_from_step, (prefix_proxy_app _ _ Hp), (IH Hc).
  reflexivity.
Qed.

(** ** The definitions at work *)

Example split_examples :
  PyStr.split "_" "aws_cost_get_monthly_costs"
  = ["aws"; "cost"; "get"; "monthly"; "costs"] /\
  PyStr.split "_" "" = [""] /\
  PyStr.split "_" "_a_" = [""; "a"; ""].
Proof. repeat split; reflexivity. Qed.

Example replace_examples :
  PyStr.replace "_proxy" "" "cost_proxy" = "cost" /\
  PyStr.replace "ab" "x" "aabab" = "axx" /\
  PyStr.replace "aa" "b" "aaa" = "ba" /\
  PyStr.replace "" "-" "abc" = "-a-b-c-".
Proof. repeat split; reflexivity. Qed.

Example split_ws_examples :
  PyStr.split_ws "  ls   -la  /tmp " = ["ls"; "-la"; "/tmp"] /\
  PyStr.split_ws "   " = [] /\
  PyStr.split_ws "ls;rm" = ["ls;rm"] /\
  PyStr.first_token "  ls   -la  /tmp " = Some "ls".
Proof. repeat split; reflexivity. Qed.

(** The scenario of the specification: [A] lists [x] and [y], [B] lists [z]. *)
Example scenario_two_servers :
  let servers := [ ("A", ExternalMcp.ServerConfig (Some "http://a/mcp") None);
                   ("B", ExternalMcp.ServerConfig (Some "http://c/mcp") None) ] in
  map name (match result (ExternalMcp.get_mcp_tools_from_servers
                            Samples.one_down servers) with
            | Return tools => tools
            | Raise _ => []
            end)
  = ["A_x"; "A_y"; "B_z"] /\
  ExternalMcp.parse_tool_name "A_y" = ret ("A", "y") /\
  calls (ExternalMcp.execute_mcp_tool Samples.one_down servers "B_z" VNone)
  = [CallTool (Http "http://c/mcp" (Some [])) "z" VNone].
Proof. repeat split; reflexivity. Qed.

(** The gateway scenario: [Official_cost] is not a proxy name, so the
    payload goes to the gateway as it came. *)
Example scenario_gateway :
  let arguments := [ ("tool_name", VStr "get_monthly_costs");
                     ("arguments", VDict [("months", VInt 3)]) ] in
  calls (GatewayMcp.execute_tool Samples.online
           (GatewayMcp.Executor Samples.gateway_config) "Official_cost" arguments)
  = [CallTool Samples.gateway_endpoint "Official_cost" (VDict arguments)].
Proof. reflexivity. Qed.

(** The four two-segment servers of [AWS_MCP_SERVERS] are found again. *)
Example aws_two_segment_servers n :
  AwsMcp.parse_tool_name (namespaced_name "aws_diagram" n) = ret ("aws_diagram", n) /\
  AwsMcp.parse_tool_name (namespaced_name "aws_eks" n) = ret ("aws_eks", n) /\
  AwsMcp.parse_tool_name (namespaced_name "aws_terraform" n)
  = ret ("aws_terraform", n) /\
  AwsMcp.parse_tool_name (namespaced_name "aws_cost" n) = ret ("aws_cost", n).
Proof.
  repeat split.
  - apply (aws_parse_two_segments "aws" "diagram"); reflexivity.
  - apply (aws_parse_two_segments "aws" "eks"); reflexivity.
  - apply (aws_parse_two_segments "aws" "terraform"); reflexivity.
  - apply (aws_parse_two_segments "aws" "cost"); reflexivity.
Qed.

(** * Further properties of the routers *)

(** ** What a dispatch does on the wire *)

Lemma text_of_events c : events (text_of c) = [].
Proof. destruct c; reflexivity. Qed.

(** The trace of the [try] block shared by [execute_aws_mcp_tool] and
    [execute_mcp_tool]. *)
(** Closes the side goals met when a trace is computed case by case. *)
Ltac trace_side :=
  intros; try discriminate; try congruence;
  repeat match goal with
         | H : inr _ = inr _ |- _ => inversion H; clear H; subst
         | H : Some _ = Some _ |- _ => inversion H; clear H; subst
         end;
  try reflexivity; try congruence.

Lemma direct_dispatch_trace w ep original arguments :
  let m :=
    try_except
      (with_session w ep (fun session =>
         initialize ep session ;;
         result <- call_tool ep session original arguments ;;
         match result_content result with
         | c :: _ => text_of c
         | [] => ret "No result"
         end))
      (fun e => ret ("Tool execution error: " ++ exn_str e)) in
  opened m = [ep] /\
  (calls m = [] \/ calls m = [CallTool ep original arguments]) /\
  closed m = match connect w ep with inr _ => [ep] | inl _ => [] end /\
  (forall s, connect w ep = inr s -> on_initialize s = None ->
             calls m = [CallTool ep original arguments]) /\
  (forall e, call_failure w ep original arguments = Some e ->
             result m = Return ("Tool execution error: " ++ exn_str e)).
Proof.
  unfold opened, closed, calls, call_failure,
    with_session, initialize, call_tool, emit, lift.
  destruct (connect w ep) as [e|s] eqn:Hc.
  - simpl. repeat split; auto; trace_side.
  - destruct (on_initialize s) as [e|] eqn:Hi.
    + simpl. repeat split; auto; trace_side.
    + destruct (on_call_tool s original arguments) as [e|[[|[t|d mt|u] cs] err]];
        simpl; repeat split; auto; trace_side.
Qed.

(** Once the name is parsed and the server found, [execute_aws_mcp_tool]
    and [execute_mcp_tool] open exactly one session, with the server the
    name resolved to; they call nothing but the original name there, with
    the caller's arguments; and they close the session they opened. *)
Theorem dispatch_contacts_only_the_resolved_server w tool_name arguments :
  (forall servers server_name original config,
      AwsMcp.parse_tool_name tool_name = ret (server_name, original) ->
      dict_get servers server_name = Some config ->
      let m := AwsMcp.execute_aws_mcp_tool w servers tool_name arguments in
      let ep := aws_endpoint config in
      opened m = [ep] /\
      (calls m = [] \/ calls m = [CallTool ep original arguments]) /\
      closed m = match connect w ep with inr _ => [ep] | inl _ => [] end) /\
  (forall servers server_name original config,
      ExternalMcp.parse_tool_name tool_name = ret (server_name, original) ->
      ExternalMcp.available servers server_name = Some config ->
      let m := ExternalMcp.execute_mcp_tool w servers tool_name arguments in
      let ep := external_endpoint config in
      opened m = [ep] /\
      (calls m = [] \/ calls m = [CallTool ep original arguments]) /\
      closed m = match connect w ep with inr _ => [ep] | inl _ => [] end).
Proof.
  split; intros servers server_name original config Hp Hs m ep; subst m.
  - unfold AwsMcp.execute_aws_mcp_tool. rewrite Hp, bind_ret, Hs.
    destruct (direct_dispatch_trace w ep original arguments)
      as (Ho & Hc & Hcl & _).
    auto.
  - unfold ExternalMcp.execute_mcp_tool. rewrite Hp, bind_ret, Hs.
    destruct (direct_dispatch_trace w ep original arguments)
      as (Ho & Hc & Hcl & _).
    auto.
Qed.

Lemma dispatch_contacts_only_the_resolved_server_witness :
  opened (AwsMcp.execute_aws_mcp_tool Samples.online AwsMcp.AWS_MCP_SERVERS
            "aws_cost_get_monthly_costs" VNone)
  = [Http "http://localhost:8003/mcp" None] /\
  opened (ExternalMcp.execute_mcp_tool Samples.offline
            (ExternalMcp.MCP_SERVERS Samples.offline) "database_query" VNone)
  = [Http "http://localhost:8002/mcp" (Some [])].
Proof.
  split.
  - apply (proj1 (dispatch_contacts_only_the_resolved_server Samples.online
                    "aws_cost_get_monthly_costs" VNone)
             AwsMcp.AWS_MCP_SERVERS "aws_cost" "get_monthly_costs"
             (AwsMcp.ServerConfig "http://localhost:8003/mcp"
                "AWS cost analysis and optimization"));
      reflexivity.
  - apply (proj2 (dispatch_contacts_only_the_resolved_server Samples.offline
                    "database_query" VNone)
             (ExternalMcp.MCP_SERVERS Samples.offline) "database" "query"
             (ExternalMcp.ServerConfig (Some "http://localhost:8002/mcp") None));
      reflexivity.
Defined.

(** A tool that a server with a two-segment identifier was listed with is
    dispatched back to that server under its original name, whatever
    underscores the original name has. *)
Theorem aws_namespaced_dispatch_reaches_origin
        w servers a b original arguments config s :
  no_underscore a = true -> no_underscore b = true ->
  dict_get servers (a ++ "_" ++ b) = Some config ->
  connect w (aws_endpoint config) = inr s -> on_initialize s = None ->
  calls (AwsMcp.execute_aws_mcp_tool w servers
           (namespaced_name (a ++ "_" ++ b) original) arguments)
  = [CallTool (aws_endpoint config) original arguments].
Proof.
  intros Ha Hb Hs Hc Hi. unfold AwsMcp.execute_aws_mcp_tool.
  rewrite (aws_parse_two_segments a b original Ha Hb), bind_ret, Hs.
  destruct (direct_dispatch_trace w (aws_endpoint config) original arguments)
    as (_ & _ & _ & H & _).
  now apply (H s).
Qed.

Lemma aws_namespaced_dispatch_reaches_origin_witness :
  calls (AwsMcp.execute_aws_mcp_tool Samples.online AwsMcp.AWS_MCP_SERVERS
           "aws_eks_list_node_groups" VNone)
  = [CallTool (Http "http://localhost:8001/mcp" None) "list_node_groups" VNone].
Proof.
  apply (aws_namespaced_dispatch_reaches_origin Samples.online
           AwsMcp.AWS_MCP_SERVERS "aws" "eks" "list_node_groups" VNone
           (AwsMcp.ServerConfig "http://localhost:8001/mcp"
              "EKS cluster management and operations")
           (Samples.serving [Samples.plain_tool "ping"]));
    reflexivity.
Defined.

(** The same for [execute_mcp_tool] and identifiers of one segment. *)
Theorem external_namespaced_dispatch_reaches_origin
        w servers server_id original arguments config s :
  no_underscore server_id = true ->
  ExternalMcp.available servers server_id = Some config ->
  connect w (external_endpoint config) = inr s -> on_initialize s = None ->
  calls (ExternalMcp.execute_mcp_tool w servers
           (namespaced_name server_id original) arguments)
  = [CallTool (external_endpoint config) original arguments].
Proof.
  intros Hid Hs Hc Hi. unfold ExternalMcp.execute_mcp_tool.
  rewrite (external_parse_one_segment server_id original Hid), bind_ret, Hs.
  destruct (direct_dispatch_trace w (external_endpoint config) original arguments)
    as (_ & _ & _ & H & _).
  now apply (H s).
Qed.

Lemma external_namespaced_dispatch_reaches_origin_witness :
  calls (ExternalMcp.execute_mcp_tool Samples.online
           (ExternalMcp.MCP_SERVERS Samples.online) "filesystem_read_file" VNone)
  = [CallTool (Http "http://localhost:8001/mcp" (Some [])) "read_file" VNone].
Proof.
  apply (external_namespaced_dispatch_reaches_origin Samples.online
           (ExternalMcp.MCP_SERVERS Samples.online) "filesystem" "read_file" VNone
           (ExternalMcp.ServerConfig (Some "http://localhost:8001/mcp") None)
           (Samples.serving [Samples.plain_tool "ping"]));
    reflexivity.
Defined.

(** Whatever goes wrong between opening the session and the answer, the
    direct dispatchers return ["Tool execution error: "] followed by the
    text of the exception; the server and the operation are not named. *)
Theorem dispatch_failure_becomes_error_string w tool_name arguments e :
  (forall servers server_name original config,
      AwsMcp.parse_tool_name tool_name = ret (server_name, original) ->
      dict_get servers server_name = Some config ->
      call_failure w (aws_endpoint config) original arguments = Some e ->
      result (AwsMcp.execute_aws_mcp_tool w servers tool_name arguments)
      = Return ("Tool execution error: " ++ exn_str e)) /\
  (forall servers server_name original config,
      ExternalMcp.parse_tool_name tool_name = ret (server_name, original) ->
      ExternalMcp.available servers server_name = Some config ->
      call_failure w (external_endpoint config) original arguments = Some e ->
      result (ExternalMcp.execute_mcp_tool w servers tool_name arguments)
      = Return ("Tool execution error: " ++ exn_str e)).
Proof.
  split; intros servers server_name original config Hp Hs Hf.
  - unfold AwsMcp.execute_aws_mcp_tool. rewrite Hp, bind_ret, Hs.
    destruct (direct_dispatch_trace w (aws_endpoint config) original arguments)
      as (_ & _ & _ & _ & H).
    now apply H.
  - unfold ExternalMcp.execute_mcp_tool. rewrite Hp, bind_ret, Hs.
    destruct (direct_dispatch_trace w (external_endpoint config) original arguments)
      as (_ & _ & _ & _ & H).
    now apply H.
Qed.

Lemma dispatch_failure_becomes_error_string_witness :
  result (AwsMcp.execute_aws_mcp_tool Samples.offline AwsMcp.AWS_MCP_SERVERS
            "aws_cost_get_monthly_costs" VNone)
  = Return "Tool execution error: Connection refused" /\
  result (ExternalMcp.execute_mcp_tool Samples.offline
            (ExternalMcp.MCP_SERVERS Samples.offline) "database_query" VNone)
  = Return "Tool execution error: Connection refused".
Proof.
  split.
  - apply (proj1 (dispatch_failure_becomes_error_string Samples.offline
                    "aws_cost_get_monthly_costs" VNone Samples.refused)
             AwsMcp.AWS_MCP_SERVERS "aws_cost" "get_monthly_costs"
             (AwsMcp.ServerConfig "http://localhost:8003/mcp"
                "AWS cost analysis and optimization"));
      reflexivity.
  - apply (proj2 (dispatch_failure_becomes_error_string Samples.offline
                    "database_query" VNone Samples.refused)
             (ExternalMcp.MCP_SERVERS Samples.offline) "database" "query"
             (ExternalMcp.ServerConfig (Some "http://localhost:8002/mcp") None));
      reflexivity.
Defined.

(** [execute_aws_mcp_tool] returns a string exactly for the names that
    contain an underscore; for the others it raises [IndexError]. *)
Theorem aws_dispatch_returns_iff_underscore w servers tool_name arguments :
  (exists s, result (AwsMcp.execute_aws_mcp_tool w servers tool_name arguments)
             = Return s)
  <-> no_underscore tool_name = false.
Proof.
  split.
  - intros [s Hs]. destruct (no_underscore tool_name) eqn:E; [|reflexivity].
    rewrite (aws_dispatch_raises_without_underscore w servers _ arguments E) in Hs.
    discriminate Hs.
  - apply aws_dispatch_returns_with_underscore.
Qed.

Lemma gateway_dispatch_returns_witness :
  exists s,
    result (GatewayMcp.execute_tool Samples.offline
              (GatewayMcp.Executor Samples.gateway_config) "cost_proxy" [])
    = Return s.
Proof.
  apply gateway_dispatch_returns. right. split; discriminate.
Defined.

(** ** The gateway executor *)

(** The trace of [execute_tool] once the endpoint and the token are read. *)
Lemma gateway_dispatch_trace w self tool_name arguments gateway_url access_token :
  dict_get (GatewayMcp.config self) "gateway_url" = Some gateway_url ->
  dict_get (GatewayMcp.config self) "access_token" = Some access_token ->
  let ep := Http gateway_url (Some (GatewayMcp.bearer access_token)) in
  let payload := if PyStr.contains "_proxy" tool_name
                 then GatewayMcp.proxy_payload tool_name arguments
                 else VDict arguments in
  let m := GatewayMcp.execute_tool w self tool_name arguments in
  opened m = [ep] /\
  (forall s, connect w ep = inr s -> on_initialize s = None ->
             calls m = [CallTool ep tool_name payload]) /\
  (forall e, call_failure w ep tool_name payload = Some e ->
             result m = Return ("Gateway tool execution error: " ++ exn_str e) /\
             In (Print ("❌ Gateway tool execution error: " ++ exn_str e))
                (events m)).
Proof.
  intros Hu Ht ep payload m. subst m payload.
  unfold GatewayMcp.execute_tool.
  destruct (GatewayMcp.config self) as [|kv cfg] eqn:E; [discriminate|].
  unfold subscript. rewrite Hu, Ht, !bind_ret. fold ep.
  unfold opened, calls, call_failure,
    with_session, initialize, call_tool, emit, lift, print.
  destruct (connect w ep) as [e|s] eqn:Hc.
  - simpl. repeat split; trace_side. simpl. auto.
  - destruct (on_initialize s) as [e|] eqn:Hi.
    + simpl. repeat split; trace_side. simpl. auto.
    + destruct (PyStr.contains "_proxy" tool_name);
        (destruct (on_call_tool s tool_name _) as [e|[[|[t|d mt|u] cs] err]]);
        simpl; repeat split; trace_side; simpl; auto 10.
Qed.

(** A tool whose name does not contain ["_proxy"] is called on the gateway
    under its own name with the caller's arguments unchanged. *)
Theorem gateway_plain_tool_passes_arguments_through
        w self tool_name arguments gateway_url access_token s :
  PyStr.contains "_proxy" tool_name = false ->
  dict_get (GatewayMcp.config self) "gateway_url" = Some gateway_url ->
  dict_get (GatewayMcp.config self) "access_token" = Some access_token ->
  let ep := Http gateway_url (Some (GatewayMcp.bearer access_token)) in
  connect w ep = inr s -> on_initialize s = None ->
  opened (GatewayMcp.execute_tool w self tool_name arguments) = [ep] /\
  calls (GatewayMcp.execute_tool w self tool_name arguments)
  = [CallTool ep tool_name (VDict arguments)].
Proof.
  intros Hp Hu Ht ep Hc Hi.
  destruct (gateway_dispatch_trace w self tool_name arguments _ _ Hu Ht)
    as (Ho & Hcall & _).
  rewrite Hp in Hcall. split; [exact Ho|]. now apply (Hcall s).
Qed.

Lemma gateway_plain_tool_passes_arguments_through_witness :
  calls (GatewayMcp.execute_tool Samples.online
           (GatewayMcp.Executor Samples.gateway_config) "Official_cost"
           [("months", VInt 3)])
  = [CallTool Samples.gateway_endpoint "Official_cost"
       (VDict [("months", VInt 3)])].
Proof.
  apply (gateway_plain_tool_passes_arguments_through Samples.online
           (GatewayMcp.Executor Samples.gateway_config) "Official_cost"
           [("months", VInt 3)] "https://gateway.example/mcp" "token"
           (Samples.serving [Samples.plain_tool "ping"]));
    reflexivity.
Defined.

(** A failure of the gateway session or of the call comes back as
    ["Gateway tool execution error: "] and the exception's text, and the same
    line is printed. *)
Theorem gateway_failure_becomes_error_string
        w self tool_name arguments gateway_url access_token e :
  dict_get (GatewayMcp.config self) "gateway_url" = Some gateway_url ->
  dict_get (GatewayMcp.config self) "access_token" = Some access_token ->
  call_failure w (Http gateway_url (Some (GatewayMcp.bearer access_token)))
               tool_name
               (if PyStr.contains "_proxy" tool_name
                then GatewayMcp.proxy_payload tool_name arguments
                else VDict arguments) = Some e ->
  result (GatewayMcp.execute_tool w self tool_name arguments)
  = Return ("Gateway tool execution error: " ++ exn_str e) /\
  In (Print ("❌ Gateway tool execution error: " ++ exn_str e))
     (events (GatewayMcp.execute_tool w self tool_name arguments)).
Proof.
  intros Hu Ht Hf.
  destruct (gateway_dispatch_trace w self tool_name arguments _ _ Hu Ht)
    as (_ & _ & H).
  now apply H.
Qed.

Lemma gateway_failure_becomes_error_string_witness :
  result (GatewayMcp.execute_tool Samples.offline
            (GatewayMcp.Executor Samples.gateway_config) "cost_proxy" [])
  = Return "Gateway tool execution error: Connection refused".
Proof.
  apply (gateway_failure_becomes_error_string Samples.offline
           (GatewayMcp.Executor Samples.gateway_config) "cost_proxy" []
           "https://gateway.example/mcp" "token" Samples.refused);
    reflexivity.
Defined.

(** ** What discovery does on the wire *)

Lemma events_bind {A B : Type} (m : M A) (k : A -> M B) (a : A) :
  result m = Return a -> events (bind m k) = (events m ++ events (k a))%list.
Proof.
  destruct m as [tr [a'|e]]; simpl; intros H; inversion H; subst.
  destruct (k a); reflexivity.
Qed.

Lemma opened_bind {A B : Type} (m : M A) (k : A -> M B) (a : A) :
  result m = Return a -> opened (bind m k) = (opened m ++ opened (k a))%list.
Proof.
  intros H. unfold opened. rewrite (events_bind _ _ _ H). apply flat_map_app.
Qed.

Lemma closed_bind {A B : Type} (m : M A) (k : A -> M B) (a : A) :
  result m = Return a -> closed (bind m k) = (closed m ++ closed (k a))%list.
Proof.
  intros H. unfold closed. rewrite (events_bind _ _ _ H). apply flat_map_app.
Qed.

Lemma calls_bind {A B : Type} (m : M A) (k : A -> M B) (a : A) :
  result m = Return a -> calls (bind m k) = (calls m ++ calls (k a))%list.
Proof.
  intros H. unfold calls. rewrite (events_bind _ _ _ H). apply filter_app.
Qed.

Lemma aws_connector_trace w server_name config :
  let m := AwsMcp.connect_to_mcp_server w server_name config in
  let ep := aws_endpoint config in
  opened m = [ep] /\ calls m = [] /\
  closed m = if connects w ep then [ep] else [].
Proof.
  unfold AwsMcp.connect_to_mcp_server, aws_endpoint, connects, opened, closed, calls,
    with_session, initialize, list_tools, emit, lift, print.
  destruct (connect w _) as [e|s]; [simpl; auto|].
  destruct (on_initialize s) as [e|]; [simpl; auto|].
  destruct (on_list_tools s) as [e|tools]; simpl; auto.
Qed.

Lemma aws_collect_trace w : forall entries all_tools,
  let m := AwsMcp.collect w entries all_tools in
  opened m = map (fun e => aws_endpoint (snd e)) entries /\
  calls m = [] /\
  closed m = filter (connects w) (map (fun e => aws_endpoint (snd e)) entries).
Proof.
  induction entries as [|[server_name config] rest IH]; intros all_tools m; subst m.
  - repeat split; reflexivity.
  - cbn [AwsMcp.collect map filter snd].
    pose proof (aws_connector_result w server_name config) as Hr.
    destruct (aws_connector_trace w server_name config) as (Ho & Hc & Hcl).
    rewrite (opened_bind _ _ _ Hr), (calls_bind _ _ _ Hr), (closed_bind _ _ _ Hr).
    destruct (IH (all_tools ++ map entry_of
                    (pairs_of server_name (aws_listing w config)))%list)
      as (Ho' & Hc' & Hcl').
    rewrite Ho, Hc, Hcl, Ho', Hc', Hcl'.
    repeat split; try reflexivity.
    destruct (connects w (aws_endpoint config)); reflexivity.
Qed.

Lemma external_step_trace w server_name config all_tools :
  let ep := external_endpoint config in
  let m :=
    try_except
      (with_session w ep (fun session =>
         initialize ep session ;;
         tools <- list_tools ep session ;;
         let all_tools' := append_prefixed server_name all_tools tools in
         print ("Connected to " ++ server_name ++ ": "
                ++ PyStr.of_nat (length tools) ++ " tools") ;;
         ret all_tools'))
      (fun e =>
         print ("Failed to connect to " ++ server_name ++ ": " ++ exn_str e) ;;
         ret all_tools) in
  opened m = [ep] /\ calls m = [] /\
  closed m = if connects w ep then [ep] else [].
Proof.
  unfold connects, opened, closed, calls,
    with_session, initialize, list_tools, emit, lift, print.
  destruct (connect w _) as [e|s]; [simpl; auto|].
  destruct (on_initialize s) as [e|]; [simpl; auto|].
  destruct (on_list_tools s) as [e|tools]; simpl; auto.
Qed.

Lemma external_collect_trace w : forall entries all_tools,
  let m := ExternalMcp.collect w entries all_tools in
  opened m = contacted entries /\
  calls m = [] /\
  closed m = filter (connects w) (contacted entries).
Proof.
  unfold contacted.
  induction entries as [|[server_name config] rest IH]; intros all_tools; cbv zeta.
  - repeat split; reflexivity.
  - cbn [ExternalMcp.collect map filter snd].
    destruct (truthy (ExternalMcp.url config)) eqn:Hu; cbn [negb]; [|apply IH].
    pose proof (external_step_result w server_name config all_tools Hu) as Hr.
    destruct (external_step_trace w server_name config all_tools) as (Ho & Hc & Hcl).
    cbv zeta in Hr, Ho, Hc, Hcl.
    rewrite (opened_bind _ _ _ Hr), (calls_bind _ _ _ Hr), (closed_bind _ _ _ Hr).
    destruct (IH (all_tools ++ map entry_of
                    (pairs_of server_name (external_listing w config)))%list)
      as (Ho' & Hc' & Hcl').
    rewrite Ho, Hc, Hcl, Ho', Hc', Hcl'. cbn [map filter snd].
    repeat split; try reflexivity.
    destruct (connects w (external_endpoint config)); reflexivity.
Qed.

(** Discovery opens one session per table entry, in table order (for
    [get_mcp_tools_from_servers]: per entry that has a URL), closes every
    session whose connection was made, and never calls a tool. *)
Theorem discovery_opens_one_session_per_server w :
  (forall servers,
      let m := AwsMcp.get_all_aws_mcp_tools w servers in
      let endpoints := map (fun e => aws_endpoint (snd e)) servers in
      opened m = endpoints /\ calls m = [] /\
      closed m = filter (connects w) endpoints) /\
  (forall servers,
      let m := ExternalMcp.get_mcp_tools_from_servers w servers in
      let endpoints :=
        map (fun e => external_endpoint (snd e))
            (filter (fun e => truthy (ExternalMcp.url (snd e))) servers) in
      opened m = endpoints /\ calls m = [] /\
      closed m = filter (connects w) endpoints).
Proof.
  split; intros servers.
  - apply (aws_collect_trace w servers []).
  - apply (external_collect_trace w servers []).
Qed.

(** ** Discovery through the gateway *)

Lemma official_prefix_has_underscore s :
  PyStr.contains "Official_" s = true -> no_underscore s = false.
Proof.
  induction s as [|c s IH]; [discriminate|].
  change (PyStr.contains "Official_" (String c s))
    with (prefix "Official_" (String c s) || PyStr.contains "Official_" s).
  intros H. apply orb_true_iff in H as [H|H].
  - destruct s as [|c1 [|c2 [|c3 [|c4 [|c5 [|c6 [|c7 [|c8 s]]]]]]]];
      cbn [prefix] in H;
      repeat match type of H with
             | context [ascii_dec ?x ?y] =>
                 destruct (ascii_dec x y); try discriminate; subst
             end.
    reflexivity.
  - cbn [no_underscore]. rewrite (IH H). apply andb_false_r.
Qed.

(** The grouping by target never fails: a name with ["Official_"] in it has
    a second segment. *)
Lemma group_tools_returns : forall tools mcp_tools,
  exists groups, GatewayMcp.group_tools tools mcp_tools = ret groups.
Proof.
  induction tools as [|t tools IH]; intros mcp_tools; cbn [GatewayMcp.group_tools].
  - now exists mcp_tools.
  - destruct (PyStr.contains "Official_" (name t)) eqn:Hc; [|apply IH].
    apply official_prefix_has_underscore in Hc.
    destruct (split_with_underscore _ Hc) as (p & q & rest & E).
    rewrite E. cbv beta iota delta [index nth_error]. rewrite bind_ret.
    apply IH.
Qed.

(** With the configuration in place, [connect_to_gateway] returns the
    gateway's tools as the gateway names them, without any prefix, and the
    empty list when the session or the listing fails. *)
Theorem gateway_discovery_returns_tools_as_listed w config gateway_url access_token :
  path_exists w GatewayMcp.config_path = true ->
  read_gateway_config w GatewayMcp.config_path = inr config ->
  dict_get config "gateway_url" = Some gateway_url ->
  dict_get config "access_token" = Some access_token ->
  result (GatewayMcp.connect_to_gateway w)
  = Return match listing w (Http gateway_url (Some (GatewayMcp.bearer access_token))) with
           | Some tools => tools
           | None => []
           end.
Proof.
  intros He Hr Hu Ht. unfold GatewayMcp.connect_to_gateway.
  rewrite He, Hr. cbn [negb lift]. rewrite bind_ret.
  unfold subscript. rewrite Hu, Ht, !bind_ret.
  unfold listing, with_session, initialize, list_tools, emit, lift, print.
  destruct (connect w _) as [e|s]; [reflexivity|].
  destruct (on_initialize s) as [e|]; [reflexivity|].
  destruct (on_list_tools s) as [e|tools]; [reflexivity|].
  destruct (group_tools_returns tools []) as [groups Hg].
  simpl. rewrite Hg. reflexivity.
Qed.

Lemma gateway_discovery_returns_tools_as_listed_witness :
  result (GatewayMcp.connect_to_gateway Fixtures.gateway_up)
  = Return Fixtures.gateway_tools.
Proof.
  apply (gateway_discovery_returns_tools_as_listed Fixtures.gateway_up
           Samples.gateway_config "https://gateway.example/mcp" "token");
    reflexivity.
Defined.

(** A configuration file that is there but cannot be read, or that lacks
    the endpoint or the token, makes [connect_to_gateway] raise: these steps
    come before its [try] block.  No session is opened. *)
Theorem gateway_discovery_raises_on_unusable_config w :
  path_exists w GatewayMcp.config_path = true ->
  (forall e, read_gateway_config w GatewayMcp.config_path = inl e ->
             GatewayMcp.connect_to_gateway w = raise e) /\
  (forall config, read_gateway_config w GatewayMcp.config_path = inr config ->
                  dict_get config "gateway_url" = None ->
                  GatewayMcp.connect_to_gateway w = raise (key_error "gateway_url")) /\
  (forall config u, read_gateway_config w GatewayMcp.config_path = inr config ->
                    dict_get config "gateway_url" = Some u ->
                    dict_get config "access_token" = None ->
                    GatewayMcp.connect_to_gateway w = raise (key_error "access_token")).
Proof.
  intros He. unfold GatewayMcp.connect_to_gateway. rewrite He. cbn [negb].
  repeat split.
  - intros e Hr. rewrite Hr. reflexivity.
  - intros config Hr Hu. rewrite Hr. cbn [lift]. rewrite bind_ret.
    unfold subscript. rewrite Hu. reflexivity.
  - intros config u Hr Hu Ht. rewrite Hr. cbn [lift]. rewrite bind_ret.
    unfold subscript. rewrite Hu, Ht, bind_ret. reflexivity.
Qed.

Lemma gateway_discovery_raises_on_unusable_config_witness :
  GatewayMcp.connect_to_gateway Fixtures.gateway_half_configured
  = raise (key_error "gateway_url").
Proof.
  apply (proj1 (proj2 (gateway_discovery_raises_on_unusable_config
                         Fixtures.gateway_half_configured eq_refl))
           [("gateway_id", "gw-1")]);
    reflexivity.
Defined.

(** ** Discovery of the local servers *)

(** What one connector call of [agent_with_official_aws_mcp.py] returns. *)
Lemma official_connector_result w server_name server_path :
  result (OfficialMcp.connect_to_aws_mcp_server w server_name server_path)
  = Return (map entry_of
              (pairs_of server_name
                 (match OfficialMcp.server_command w server_path with
                  | Some cmd => listing w (Stdio cmd)
                  | None => None
                  end))).
Proof.
  rewrite entries_of_pairs. unfold OfficialMcp.connect_to_aws_mcp_server.
  destruct (OfficialMcp.server_command w server_path) as [cmd|]; [|reflexivity].
  unfold listing, with_session, initialize, list_tools, emit, lift, print.
  destruct (connect w _) as [e|s]; [reflexivity|].
  destruct (on_initialize s) as [e|]; [reflexivity|].
  destruct (on_list_tools s) as [e|tools]; [reflexivity|].
  simpl. rewrite append_prefixed_map. reflexivity.
Qed.

Lemma official_collect_result w : forall entries all_tools,
  (forall server_id config,
      In (server_id, config) entries -> dict_get config "path" <> None) ->
  result (OfficialMcp.collect w entries all_tools)
  = Return (all_tools ++ map entry_of (pairs (official_listing w) entries))%list.
Proof.
  induction entries as [|[server_name config] rest IH]; intros all_tools Hp.
  - simpl. now rewrite app_nil_r.
  - cbn [OfficialMcp.collect]. unfold subscript.
    destruct (dict_get config "path") as [server_path|] eqn:E.
    + rewrite bind_ret.
      rewrite (result_bind _ _ _ (official_connector_result w server_name server_path)).
      rewrite IH by (intros sid c Hin; apply (Hp sid c); now right).
      rewrite pairs_cons, map_app, app_assoc.
      unfold official_listing at 2. rewrite E. reflexivity.
    + now destruct (Hp server_name config (or_introl eq_refl)).
Qed.

(** When every entry of [aws_mcp_config.json] has a ["path"], discovery
    returns, in file order, the tools of every server directory whose
    command is found and whose session lists them, each under
    [server ++ "_" ++ name]; the other servers contribute nothing. *)
Theorem official_discovery_lists_answering_servers w server_config :
  path_exists w OfficialMcp.config_path = true ->
  read_server_config w OfficialMcp.config_path = inr server_config ->
  (forall server_id config,
      In (server_id, config) server_config -> dict_get config "path" <> None) ->
  result (OfficialMcp.get_all_aws_mcp_tools w)
  = Return (map entry_of (pairs (official_listing w) server_config)).
Proof.
  intros He Hr Hp. unfold OfficialMcp.get_all_aws_mcp_tools.
  rewrite He, Hr. cbn [negb lift]. rewrite bind_ret.
  apply (official_collect_result w server_config [] Hp).
Qed.

Lemma official_discovery_lists_answering_servers_witness :
  result (OfficialMcp.get_all_aws_mcp_tools Samples.overlapping_files)
  = Return [Samples.plain_tool "aws_cost_get"; Samples.plain_tool "aws_cost_get"].
Proof.
  apply (official_discovery_lists_answering_servers Samples.overlapping_files
           [ ("aws", [("path", "srv/aws")]);
             ("aws_cost", [("path", "srv/aws_cost")]) ]).
  - reflexivity.
  - reflexivity.
  - intros sid c [H|[H|[]]]; inversion H; discriminate.
Defined.

Lemma official_collect_missing_path w : forall entries all_tools,
  (exists server_id config,
      In (server_id, config) entries /\ dict_get config "path" = None) ->
  result (OfficialMcp.collect w entries all_tools) = Raise (key_error "path").
Proof.
  induction entries as [|[server_name config] rest IH];
    intros all_tools (sid & c & Hin & Hp).
  - destruct Hin.
  - cbn [OfficialMcp.collect]. unfold subscript.
    destruct (dict_get config "path") as [server_path|] eqn:E; [|reflexivity].
    rewrite bind_ret.
    rewrite (result_bind _ _ _ (official_connector_result w server_name server_path)).
    apply IH. exists sid, c. split; [|assumption].
    destruct Hin as [H|H]; [|assumption]. inversion H; subst. congruence.
Qed.

(** One entry of [aws_mcp_config.json] without a ["path"] makes the whole
    discovery raise [KeyError], whatever the other servers answered: the
    lookup is outside the connector's [try] block. *)
Theorem official_discovery_raises_on_missing_path w server_config :
  path_exists w OfficialMcp.config_path = true ->
  read_server_config w OfficialMcp.config_path = inr server_config ->
  (exists server_id config,
      In (server_id, config) server_config /\ dict_get config "path" = None) ->
  result (OfficialMcp.get_all_aws_mcp_tools w) = Raise (key_error "path").
Proof.
  intros He Hr Hp. unfold OfficialMcp.get_all_aws_mcp_tools.
  rewrite He, Hr. cbn [negb lift]. rewrite bind_ret.
  apply (official_collect_missing_path w server_config [] Hp).
Qed.

Lemma official_discovery_raises_on_missing_path_witness :
  result (OfficialMcp.get_all_aws_mcp_tools Fixtures.path_missing)
  = Raise (key_error "path").
Proof.
  apply (official_discovery_raises_on_missing_path Fixtures.path_missing
           [ ("s3", [("path", "aws-mcp/s3")]); ("ec2", [("port", "8001")]) ]).
  - reflexivity.
  - reflexivity.
  - exists "ec2", [("port", "8001")]. split; [simpl; auto|reflexivity].
Defined.

(** A server directory with none of [main.py], [index.js] and [server.py]
    is reported and skipped: no subprocess session is opened for it. *)
Theorem official_server_without_executable_is_skipped w server_name server_path :
  path_exists w (server_path ++ "/main.py") = false ->
  path_exists w (server_path ++ "/index.js") = false ->
  path_exists w (server_path ++ "/server.py") = false ->
  OfficialMcp.connect_to_aws_mcp_server w server_name server_path
  = ([Print ("❌ No executable found for " ++ server_name)], Return []).
Proof.
  intros H1 H2 H3.
  unfold OfficialMcp.connect_to_aws_mcp_server, OfficialMcp.server_command.
  rewrite H1, H2, H3. reflexivity.
Qed.

Lemma official_server_without_executable_is_skipped_witness :
  opened (OfficialMcp.connect_to_aws_mcp_server Samples.online "s3" "aws-mcp/s3")
  = [].
Proof.
  unfold opened.
  rewrite (official_server_without_executable_is_skipped Samples.online
             "s3" "aws-mcp/s3" eq_refl eq_refl eq_refl).
  reflexivity.
Defined.

(** ** The entry points *)

Lemma aws_load_tools_result w servers agent :
  result (AwsEntry.load_tools w servers agent)
  = Return match map entry_of (aws_pairs w servers) with
           | [] => agent
           | t :: ts => Entry.AgentState (Entry.session_id agent) (t :: ts)
           end.
Proof.
  unfold AwsEntry.load_tools.
  pose proof (aws_collect_result w servers []) as Hr. simpl app in Hr.
  unfold AwsMcp.get_all_aws_mcp_tools.
  destruct (AwsMcp.collect w servers []) as [tr [tools|e]]; simpl in Hr;
    inversion Hr; subst.
  destruct (map entry_of (aws_pairs w servers)); reflexivity.
Qed.

(** [invoke] of agent_with_aws_mcp.py always reaches the agent: discovery
    cannot make it fail.  The agent runs with the session identifier of the
    context when it has one, with the prompt of the payload or the greeting,
    and with the tools just discovered, or, when none was discovered, with
    the tools it had before. *)
Theorem aws_invoke_runs_agent_with_discovered_tools
        w servers agent_run agent payload context :
  let agent' :=
    Entry.AgentState
      (match context with
       | Some sid => sid
       | None => Entry.session_id agent
       end)
      (match map entry_of (aws_pairs w servers) with
       | [] => Entry.agent_tools agent
       | t :: ts => t :: ts
       end) in
  let prompt :=
    match dict_get payload "prompt" with
    | Some p => p
    | None => VStr "Hello! I'm your AWS expert assistant."
    end in
  result (AwsEntry.invoke w servers agent_run agent payload context)
  = match agent_run agent' prompt with
    | inl e => Raise e
    | inr content => result (Entry.first_text content)
    end.
Proof.
  intros agent' prompt. unfold AwsEntry.invoke.
  rewrite (result_bind _ _ _ (aws_load_tools_result w servers _)).
  assert (Ha : match map entry_of (aws_pairs w servers) with
               | [] => Entry.set_session agent context
               | t :: ts =>
                   Entry.AgentState
                     (Entry.session_id (Entry.set_session agent context)) (t :: ts)
               end = agent').
  { subst agent'. destruct context, agent,
      (map entry_of (aws_pairs w servers)); reflexivity. }
  rewrite Ha. unfold Entry.prompt_of. fold prompt.
  destruct (agent_run agent' prompt) as [e|content]; [reflexivity|].
  cbn [lift]. rewrite bind_ret. reflexivity.
Qed.

Lemma official_load_tools_result w agent :
  result (OfficialEntry.load_tools w agent)
  = Return match result (OfficialMcp.get_all_aws_mcp_tools w) with
           | Return (t :: ts) => Entry.AgentState (Entry.session_id agent) (t :: ts)
           | _ => agent
           end.
Proof.
  unfold OfficialEntry.load_tools.
  destruct (OfficialMcp.get_all_aws_mcp_tools w) as [tr [[|t ts]|e]]; reflexivity.
Qed.

(** [invoke] of agent_with_official_aws_mcp.py catches what discovery
    raises (an unreadable configuration, an entry without a path): the agent
    still runs, with the tools it had before. *)
Theorem official_invoke_survives_failed_discovery
        w agent_run agent payload context e :
  result (OfficialMcp.get_all_aws_mcp_tools w) = Raise e ->
  result (OfficialEntry.invoke w agent_run agent payload context)
  = match agent_run (Entry.set_session agent context)
                    (Entry.prompt_of payload
                       "Hello! I'm your AWS expert assistant with official AWS MCP tools.")
    with
    | inl e' => Raise e'
    | inr content => result (Entry.first_text content)
    end.
Proof.
  intros He. unfold OfficialEntry.invoke.
  rewrite (result_bind _ _ _ (official_load_tools_result w _)), He.
  destruct (agent_run _ _) as [e'|content]; [reflexivity|].
  cbn [lift]. rewrite bind_ret. reflexivity.
Qed.

Lemma official_invoke_survives_failed_discovery_witness :
  result (OfficialEntry.invoke Fixtures.path_missing Fixtures.counting_agent
            Fixtures.fresh_agent [] None)
  = Return (VStr "0").
Proof.
  apply (official_invoke_survives_failed_discovery Fixtures.path_missing
           Fixtures.counting_agent Fixtures.fresh_agent [] None
           (key_error "path")).
  reflexivity.
Defined.

(** ** The local tools *)

Lemma slice_to_length n : forall s,
  String.length (PyStr.slice_to n s) = Nat.min n (String.length s).
Proof.
  unfold PyStr.slice_to.
  induction n as [|n IH]; intros [|c s]; simpl; try reflexivity.
  now rewrite IH.
Qed.

Lemma slice_to_prefix n : forall s, prefix (PyStr.slice_to n s) s = true.
Proof.
  unfold PyStr.slice_to.
  induction n as [|n IH]; intros [|c s]; simpl; try reflexivity.
  destruct (ascii_dec c c); [apply IH|congruence].
Qed.

(** When the first token is a safe command, [run_command] returns the
    beginning of what the shell printed, at most 500 characters of it: of
    the standard output when there is any, of the standard error otherwise.
    When starting or running the command raises, it returns
    ["Command error: "] and the exception's text. *)
Theorem run_command_returns_truncated_output w command first :
  PyStr.first_token command = Some first ->
  In first MultipleMcp.safe_commands ->
  exists out,
    result (MultipleMcp.run_command w command) = Return out /\
    (forall e, subprocess_run w command = inl e ->
               out = "Command error: " ++ exn_str e) /\
    (forall p, subprocess_run w command = inr p ->
               String.length out <= 500 /\
               prefix out (if String.eqb (stdout p) "" then stderr p else stdout p)
               = true /\
               (String.length (stdout p) <= 500 -> stdout p <> "" ->
                out = stdout p)).
Proof.
  intros Hf Hin. unfold MultipleMcp.run_command.
  rewrite refused_first_token, Hf.
  apply mem_In in Hin. rewrite Hin. cbn [negb].
  unfold emit, lift.
  destruct (subprocess_run w command) as [e|[out err]].
  - eexists. split; [reflexivity|]. split; intros; [congruence|discriminate].
  - destruct out as [|c out].
    + exists (PyStr.slice_to 500 err). split; [reflexivity|].
      split; [discriminate|]. intros p Hp. inversion Hp; subst. simpl.
      split; [rewrite slice_to_length; apply Nat.le_min_l|].
      split; [apply slice_to_prefix|]. congruence.
    + exists (PyStr.slice_to 500 (String c out)). split; [reflexivity|].
      split; [discriminate|]. intros p Hp. inversion Hp; subst.
      cbn [stdout stderr String.eqb].
      split; [rewrite slice_to_length; apply Nat.le_min_l|].
      split; [apply slice_to_prefix|].
      intros Hl _. clear -Hl. revert Hl.
      generalize (String c out) as s. generalize 500 as n.
      unfold PyStr.slice_to.
      induction n as [|n IH]; intros [|c' s]; simpl; intros H;
        try reflexivity; try lia.
      rewrite IH by lia. reflexivity.
Qed.

Lemma run_command_returns_truncated_output_witness :
  exists out,
    result (MultipleMcp.run_command Fixtures.chatty_shell "ls -la") = Return out /\
    String.length out <= 500.
Proof.
  destruct (run_command_returns_truncated_output Fixtures.chatty_shell
              "ls -la" "ls") as (out & Hr & _ & Hp).
  - reflexivity.
  - simpl. auto.
  - exists out. split; [exact Hr|].
    apply (Hp (CompletedProcess Fixtures.long_output "warning")). reflexivity.
Defined.

(** [fetch_url_data] and [read_file] always return a string: the first
    1000 characters at most of what was fetched or read, or a message with
    the exception's text. *)
Theorem fetch_and_read_return_at_most_1000_characters
        (http_get_text read_text : string -> exn + string) (target : string) :
  (exists out,
      result (LocalTools.fetch_url_data http_get_text target) = Return out /\
      (forall text, http_get_text target = inr text ->
                    String.length out <= 1000 /\ prefix out text = true) /\
      (forall e, http_get_text target = inl e ->
                 out = "Error fetching " ++ target ++ ": " ++ exn_str e)) /\
  (exists out,
      result (LocalTools.read_file read_text target) = Return out /\
      (forall text, read_text target = inr text ->
                    String.length out <= 1000 /\ prefix out text = true) /\
      (forall e, read_text target = inl e ->
                 out = "Error reading file: " ++ exn_str e)).
Proof.
  split.
  - unfold LocalTools.fetch_url_data.
    destruct (http_get_text target) as [e|text]; eexists;
      (split; [reflexivity|]); split; intros; try discriminate;
      match goal with H : _ = _ |- _ => inversion H; subst end;
      try reflexivity.
    split; [rewrite slice_to_length; apply Nat.le_min_l|apply slice_to_prefix].
  - unfold LocalTools.read_file.
    destruct (read_text target) as [e|text]; eexists;
      (split; [reflexivity|]); split; intros; try discriminate;
      match goal with H : _ = _ |- _ => inversion H; subst end;
      try reflexivity.
    split; [rewrite slice_to_length; apply Nat.le_min_l|apply slice_to_prefix].
Qed.

Lemma upper_step_s c rest :
  LocalTools.starts_with (LocalTools.codes "SELECT")
                         (LocalTools.upper_char c ++ rest)%list
  = same_letter "s" c && LocalTools.starts_with (LocalTools.codes "ELECT") rest.
Proof. destruct c as [[] [] [] [] [] [] [] []]; reflexivity. Qed.

Lemma upper_step (l : ascii) target c rest :
  In l ["e"; "l"; "c"; "t"]%char ->
  LocalTools.starts_with
    (N_of_ascii (ascii_of_nat (nat_of_ascii l - 32)) :: target)
    (LocalTools.upper_char c ++ rest)%list
  = same_letter l c && LocalTools.starts_with target rest.
Proof.
  intros [<-|[<-|[<-|[<-|[]]]]];
    destruct c as [[] [] [] [] [] [] [] []]; reflexivity.
Qed.

(** [query.upper().startswith('SELECT')] holds exactly when the query
    begins with the six letters of "select", in any mix of cases. *)
Lemma upper_starts_with_select query :
  LocalTools.starts_with (LocalTools.codes "SELECT") (LocalTools.upper query)
  = begins_with_word "select" query.
Proof.
  destruct query as [|c1 q]; [reflexivity|].
  cbn [LocalTools.upper begins_with_word]. rewrite upper_step_s. f_equal.
  destruct q as [|c2 q]; [reflexivity|].
  cbn [LocalTools.upper begins_with_word].
  change (LocalTools.codes "ELECT")
    with (N_of_ascii (ascii_of_nat (nat_of_ascii "e" - 32)) :: LocalTools.codes "LECT").
  rewrite upper_step by (simpl; auto). f_equal.
  destruct q as [|c3 q]; [reflexivity|].
  cbn [LocalTools.upper begins_with_word].
  change (LocalTools.codes "LECT")
    with (N_of_ascii (ascii_of_nat (nat_of_ascii "l" - 32)) :: LocalTools.codes "ECT").
  rewrite upper_step by (simpl; auto). f_equal.
  destruct q as [|c4 q]; [reflexivity|].
  cbn [LocalTools.upper begins_with_word].
  change (LocalTools.codes "ECT")
    with (N_of_ascii (ascii_of_nat (nat_of_ascii "e" - 32)) :: LocalTools.codes "CT").
  rewrite upper_step by (simpl; auto). f_equal.
  destruct q as [|c5 q]; [reflexivity|].
  cbn [LocalTools.upper begins_with_word].
  change (LocalTools.codes "CT")
    with (N_of_ascii (ascii_of_nat (nat_of_ascii "c" - 32)) :: LocalTools.codes "T").
  rewrite upper_step by (simpl; auto). f_equal.
  destruct q as [|c6 q]; [reflexivity|].
  cbn [LocalTools.upper begins_with_word].
  change (LocalTools.codes "T")
    with (N_of_ascii (ascii_of_nat (nat_of_ascii "t" - 32)) :: []).
  rewrite upper_step by (simpl; auto). reflexivity.
Qed.

(** [query_database] runs a query only when it begins with the letters of
    "select" in some mix of cases, nothing before them; every other query,
    the empty one too, is answered with the refusal whatever the database
    would have said.  A query that is run comes back as the rows or as
    ["Database error: "] and the exception's text. *)
Theorem query_database_runs_only_select (sqlite_rows : string -> exn + string) query :
  (begins_with_word "select" query = false ->
   LocalTools.query_database sqlite_rows query
   = ret "Only SELECT queries are allowed") /\
  (begins_with_word "select" query = true ->
   result (LocalTools.query_database sqlite_rows query)
   = Return match sqlite_rows query with
            | inr rows => rows
            | inl e => "Database error: " ++ exn_str e
            end).
Proof.
  unfold LocalTools.query_database. rewrite upper_starts_with_select.
  split; intros H; rewrite H; cbn [negb]; [reflexivity|].
  destruct (sqlite_rows query); reflexivity.
Qed.

Lemma query_database_runs_only_select_witness :
  LocalTools.query_database (fun _ => inr "[]") " select * from users"
  = ret "Only SELECT queries are allowed" /\
  LocalTools.query_database (fun _ => inr "[]") "DROP TABLE users"
  = ret "Only SELECT queries are allowed" /\
  result (LocalTools.query_database (fun _ => inr "[]")
            "Select 1; drop table users")
  = Return "[]".
Proof.
  split; [|split].
  - apply (proj1 (query_database_runs_only_select (fun _ => inr "[]")
                    " select * from users")).
    reflexivity.
  - apply (proj1 (query_database_runs_only_select (fun _ => inr "[]")
                    "DROP TABLE users")).
    reflexivity.
  - apply (proj2 (query_database_runs_only_select (fun _ => inr "[]")
                    "Select 1; drop table users")).
    reflexivity.
Defined.

(** ** Which servers a dispatch can reach *)

Lemma split_pieces_no_underscore s :
  Forall (fun p => no_underscore p = true) (PyStr.split "_" s).
Proof.
  induction s as [|c s IH]; simpl.
  - repeat constructor.
  - destruct (Ascii.eqb c "_") eqn:Hc.
    + constructor; [reflexivity|assumption].
    + destruct (PyStr.split "_" s) as [|p ps].
      * repeat constructor. simpl. now rewrite Hc.
      * inversion IH; subst. constructor; [|assumption].
        simpl. rewrite Hc. assumption.
Qed.

Lemma join_cons_cons p q rest :
  PyStr.join "_" (p :: q :: rest) = p ++ "_" ++ PyStr.join "_" (q :: rest).
Proof. reflexivity. Qed.

(** The server identifier [execute_aws_mcp_tool] reads off a name always
    has exactly two segments, and the one [execute_mcp_tool] reads off has
    one; put together again by the forward rule, the two parts give the
    name back (when the name has no underscore left for the second part,
    the identifier is the whole name). *)
Theorem reverse_parse_splits_at_a_fixed_segment tool_name :
  (forall server_name original,
      AwsMcp.parse_tool_name tool_name = ret (server_name, original) ->
      (exists a b, server_name = a ++ "_" ++ b /\
                   no_underscore a = true /\ no_underscore b = true) /\
      (namespaced_name server_name original = tool_name \/
       (original = "" /\ server_name = tool_name))) /\
  (exists server_name original,
      ExternalMcp.parse_tool_name tool_name = ret (server_name, original) /\
      no_underscore server_name = true /\
      (namespaced_name server_name original = tool_name \/
       (original = "" /\ server_name = tool_name))).
Proof.
  pose proof (split_pieces_no_underscore tool_name) as Hall.
  pose proof (join_split tool_name) as Hj.
  split.
  - intros server_name original.
    destruct (PyStr.split "_" tool_name) as [|p [|q rest]] eqn:E.
    + now destruct (split_not_nil "_" tool_name).
    + unfold AwsMcp.parse_tool_name. rewrite E. discriminate.
    + rewrite (aws_parse_split _ _ _ _ E). intros H.
      inversion H as [[H1 H2]]. clear H.
      inversion Hall as [|? ? Hp Hrest]. inversion Hrest as [|? ? Hq _].
      split; [now exists p, q|].
      destruct rest as [|r rest].
      * right. split; [reflexivity|exact Hj].
      * left. unfold namespaced_name.
        rewrite join_cons_cons in Hj. rewrite string_app_assoc. exact Hj.
  - destruct (PyStr.split "_" tool_name) as [|p rest] eqn:E.
    + now destruct (split_not_nil "_" tool_name).
    + exists p, (PyStr.join "_" rest).
      split; [apply (external_parse_split _ _ _ E)|].
      inversion Hall as [|? ? Hp _]. split; [assumption|].
      destruct rest as [|q rest].
      * right. split; [reflexivity|exact Hj].
      * left. exact Hj.
Qed.

Lemma reverse_parse_splits_at_a_fixed_segment_witness :
  namespaced_name "github_list" "repositories" = "github_list_repositories" /\
  exists a b, "github_list" = a ++ "_" ++ b /\
              no_underscore a = true /\ no_underscore b = true.
Proof.
  destruct (proj1 (reverse_parse_splits_at_a_fixed_segment
                     "github_list_repositories")
                  "github_list" "repositories" eq_refl) as [Hshape Hname].
  split; [reflexivity|exact Hshape].
Defined.

Lemma opened_raise {A : Type} (e : exn) : opened (@raise A e) = [].
Proof. reflexivity. Qed.

(** Whatever name it is given, [execute_aws_mcp_tool] opens a session only
    with a server registered under an identifier of exactly two segments,
    and [execute_mcp_tool] only with one registered under a single segment:
    servers registered under other identifiers are never called. *)
Theorem dispatch_reaches_only_identifiers_of_the_parsed_shape
        w tool_name arguments ep :
  (forall servers,
      In ep (opened (AwsMcp.execute_aws_mcp_tool w servers tool_name arguments)) ->
      exists a b config,
        no_underscore a = true /\ no_underscore b = true /\
        dict_get servers (a ++ "_" ++ b) = Some config /\
        ep = aws_endpoint config) /\
  (forall servers,
      In ep (opened (ExternalMcp.execute_mcp_tool w servers tool_name arguments)) ->
      exists server_id config,
        no_underscore server_id = true /\
        ExternalMcp.available servers server_id = Some config /\
        ep = external_endpoint config).
Proof.
  pose proof (split_pieces_no_underscore tool_name) as Hall.
  split; intros servers Hin.
  - destruct (no_underscore tool_name) eqn:Hu.
    + rewrite (aws_dispatch_raises_without_underscore _ _ _ _ Hu) in Hin.
      destruct Hin.
    + destruct (split_with_underscore _ Hu) as (p & q & rest & E).
      rewrite E in Hall.
      inversion Hall as [|? ? Hp Hrest]. inversion Hrest as [|? ? Hq _].
      unfold AwsMcp.execute_aws_mcp_tool in Hin.
      rewrite (aws_parse_split _ _ _ _ E), bind_ret in Hin.
      destruct (dict_get servers (p ++ "_" ++ q)) as [config|] eqn:Hs;
        [|destruct Hin].
      destruct (direct_dispatch_trace w (aws_endpoint config)
                  (PyStr.join "_" rest) arguments) as (Ho & _).
      cbv zeta in Ho. unfold aws_endpoint in Ho. rewrite Ho in Hin.
      destruct Hin as [<-|[]]. now exists p, q, config.
  - destruct (PyStr.split "_" tool_name) as [|p rest] eqn:E.
    + now destruct (split_not_nil "_" tool_name).
    + inversion Hall as [|? ? Hp _].
      unfold ExternalMcp.execute_mcp_tool in Hin.
      rewrite (external_parse_split _ _ _ E), bind_ret in Hin.
      destruct (ExternalMcp.available servers p) as [config|] eqn:Ha;
        [|destruct Hin].
      destruct (direct_dispatch_trace w (external_endpoint config)
                  (PyStr.join "_" rest) arguments) as (Ho & _).
      cbv zeta in Ho. unfold external_endpoint in Ho. rewrite Ho in Hin.
      destruct Hin as [<-|[]]. now exists p, config.
Qed.

Lemma dispatch_reaches_only_identifiers_of_the_parsed_shape_witness :
  exists a b config,
    no_underscore a = true /\ no_underscore b = true /\
    dict_get AwsMcp.AWS_MCP_SERVERS (a ++ "_" ++ b) = Some config /\
    Http "http://localhost:8003/mcp" None = aws_endpoint config.
Proof.
  apply (proj1 (dispatch_reaches_only_identifiers_of_the_parsed_shape
                  Samples.online "aws_cost_get_monthly_costs" VNone
                  (Http "http://localhost:8003/mcp" None))
           AwsMcp.AWS_MCP_SERVERS).
  simpl. auto.
Defined.

(** ** Where a bearer token goes *)

Lemma dict_get_In {V : Type} (d : dict V) k v :
  dict_get d k = Some v -> In (k, v) d.
Proof.
  induction d as [|[k' v'] d IH]; simpl; [discriminate|].
  destruct (String.eqb_spec k k') as [->|_].
  - intros H. inversion H. now left.
  - intros H. right. now apply IH.
Qed.

Lemma external_endpoint_header c url headers key value :
  truthy (ExternalMcp.url c) = true ->
  external_endpoint c = Http url (Some headers) ->
  In (key, value) headers ->
  ExternalMcp.url c = Some url /\
  exists token, ExternalMcp.auth c = Some token /\
                key = "Authorization" /\ value = "Bearer " ++ token.
Proof.
  unfold external_endpoint, ExternalMcp.url_of, ExternalMcp.headers_of.
  destruct c as [[u|] a]; simpl; [|discriminate].
  intros _ H. inversion H; subst. clear H.
  destruct a as [[|ch token]|]; simpl; intros Hin; try contradiction.
  destruct Hin as [Hin|[]]. inversion Hin; subst.
  split; [reflexivity|]. now exists (String ch token).
Qed.

(** In agent_with_external_mcp.py an [Authorization] header is sent only
    to the URL of the server whose table entry holds that token, during
    discovery and during dispatch alike; no other header is ever sent. *)
Theorem bearer_token_goes_only_to_its_own_server w servers url headers key value :
  In (key, value) headers ->
  (In (Http url (Some headers))
      (opened (ExternalMcp.get_mcp_tools_from_servers w servers)) ->
   exists server_id c token,
     In (server_id, c) servers /\ ExternalMcp.url c = Some url /\
     ExternalMcp.auth c = Some token /\
     key = "Authorization" /\ value = "Bearer " ++ token) /\
  (forall tool_name arguments,
      In (Http url (Some headers))
         (opened (ExternalMcp.execute_mcp_tool w servers tool_name arguments)) ->
      exists server_id c token,
        In (server_id, c) servers /\ ExternalMcp.url c = Some url /\
        ExternalMcp.auth c = Some token /\
        key = "Authorization" /\ value = "Bearer " ++ token).
Proof.
  intros Hkv. split.
  - intros Hin.
    destruct (external_collect_trace w servers []) as (Ho & _).
    unfold ExternalMcp.get_mcp_tools_from_servers in Hin.
    cbv zeta in Ho. rewrite Ho in Hin. unfold contacted in Hin.
    apply in_map_iff in Hin as [[sid c] [Hep Hf]].
    apply filter_In in Hf as [Hs Hu]. simpl in Hep, Hu.
    destruct (external_endpoint_header c url headers key value Hu Hep Hkv)
      as (Hurl & token & Ha & Hk & Hv).
    now exists sid, c, token.
  - intros tool_name arguments Hin.
    destruct (PyStr.split "_" tool_name) as [|p rest] eqn:E.
    + now destruct (split_not_nil "_" tool_name).
    + unfold ExternalMcp.execute_mcp_tool in Hin.
      rewrite (external_parse_split _ _ _ E), bind_ret in Hin.
      destruct (ExternalMcp.available servers p) as [config|] eqn:Ha;
        [|destruct Hin].
      destruct (direct_dispatch_trace w (external_endpoint config)
                  (PyStr.join "_" rest) arguments) as (Ho & _).
      cbv zeta in Ho. unfold external_endpoint in Ho. rewrite Ho in Hin.
      destruct Hin as [Hep|[]].
      unfold ExternalMcp.available in Ha.
      destruct (dict_get servers p) as [c|] eqn:Hg; [|discriminate].
      destruct (truthy (ExternalMcp.url c)) eqn:Hu; [|discriminate].
      inversion Ha; subst c.
      destruct (external_endpoint_header config url headers key value Hu Hep Hkv)
        as (Hurl & token & Hau & Hk & Hv).
      exists p, config, token. split; [now apply dict_get_In|auto].
Qed.

Lemma bearer_token_goes_only_to_its_own_server_witness :
  exists server_id c token,
    In (server_id, c) Samples.three_external /\
    ExternalMcp.url c = Some "http://b/mcp" /\
    ExternalMcp.auth c = Some token /\
    "Authorization" = "Authorization" /\ "Bearer secret" = "Bearer " ++ token.
Proof.
  apply (proj1 (bearer_token_goes_only_to_its_own_server Samples.one_down
                  Samples.three_external "http://b/mcp"
                  [("Authorization", "Bearer secret")]
                  "Authorization" "Bearer secret" (or_introl eq_refl))).
  simpl. auto.
Defined.

(** ** Colliding names *)




